(** * roswtf: checks on the core ROS Python packages

    A shallow embedding of [roswtf/py_pip_deb_checks.py] and the properties
    of its predicates, of its three warning rules and of [wtf_check].

    The module talks to three collaborators: the OS detector of [rospkg],
    the shell ([subprocess.call] with [shell=True]) and the module system
    ([importlib.import_module]).  They are the fields of [env]; the one
    piece of state the module changes is the interpreter's module cache
    ([sys.modules]), next to which the calls made to the host framework
    ([warning_rule], [error_rule]) are recorded. *)

From stdpp Require Import base strings list gmap.
From Stdlib Require Import ZArith.

Local Open Scope string_scope.

(** ** Python values, exceptions and results *)

(** The exception classes that can reach this module.  [ModuleNotFoundError]
    derives from [ImportError]; [PyException cls] is any other class, one
    that does not derive from [ImportError]. *)
Inductive exn : Type :=
  | ImportError
  | ModuleNotFoundError
  | AttributeError
  | TypeError
  | KeyError
  | SyntaxError
  | OsNotDetected
  | PyException (cls : string).

(** [isinstance(x, ImportError)], what [except ImportError] tests. *)
Definition is_ImportError (x : exn) : bool :=
  match x with
  | ImportError | ModuleNotFoundError => true
  | _ => false
  end.

Inductive result (A : Type) : Type :=
  | Return (a : A)
  | Raise (x : exn).
Arguments Return {A} a.
Arguments Raise {A} x.

(** The values a module's [__file__] attribute takes. *)
Inductive pyval : Type :=
  | PyNone
  | PyStr (s : string).

(** A loaded module: [mod_file] is its [__file__] attribute, [None] when
    the module has no such attribute. *)
Record pymodule : Type := {
  mod_name : string;
  mod_file : option pyval;
}.

(** How the command line handed to the shell ended: the command ran and
    exited with [code], or the shell could not launch it. *)
Inductive proc_status : Type :=
  | Exited (code : Z)
  | CommandNotFound
  | CommandNotExecutable.

(** The exit status [subprocess.call(cmd, shell=True)] hands back: the
    command's own, or the shell's 127 and 126 for a command it could not
    launch. *)
Definition returncode (p : proc_status) : Z :=
  match p with
  | Exited code => code
  | CommandNotFound => 127
  | CommandNotExecutable => 126
  end.

(** A dictionary in iteration order; its keys are distinct ([wf_dict]). *)
Definition dict : Type := list (string * string).

Definition dict_keys (d : dict) : list string := map fst d.

Definition wf_dict (d : dict) : Prop := NoDup (dict_keys d).

(** [d[k]] *)
Fixpoint dict_get (d : dict) (k : string) : result string :=
  match d with
  | [] => Raise KeyError
  | (k', v) :: d' => if String.eqb k' k then Return v else dict_get d' k
  end.

(** [needle in hay] on strings: [needle] occurs in [hay] at some offset. *)
Fixpoint str_contains (needle hay : string) : bool :=
  String.prefix needle hay ||
  match hay with
  | EmptyString => false
  | String _ hay' => str_contains needle hay'
  end.

(** ** The environment and the monad of the checks *)

(** The collaborators of the module.  [detect_os] is what
    [rospkg.os_detect.OsDetect().detect_os()] gives, [sh cmd] how the
    shell command [cmd] ends, [find_module name] what the import system
    does for a module that is not loaded yet. *)
Record env : Type := {
  detect_os : result (string * string * string);
  sh : string -> proc_status;
  find_module : string -> result pymodule;
}.

Section Checks.

(** The run context of the host framework; the module only passes it on. *)
Context {Ctx : Type}.

(** The warning and error rules, by name. *)
Inductive rule_fn : Type :=
  | Python_module_install_check
  | Pip_install_check_on_ubuntu
  | Deb_install_check_on_ubuntu.

(** A rule as the host framework sees it: (function, message). *)
Definition rule : Type := rule_fn * string.

(** A call to the host framework. *)
Inductive host_call : Type :=
  | Warning_rule (r : rule) (ret : option string) (ctx : Ctx)
  | Error_rule (r : rule) (ret : option string) (ctx : Ctx).

Record state : Type := {
  sys_modules : gmap string pymodule;
  host_calls : list host_call;
}.

Definition Py (A : Type) : Type := env -> state -> result A * state.

Definition ret {A} (a : A) : Py A := fun _ s => (Return a, s).

Definition raise {A} (x : exn) : Py A := fun _ s => (Raise x, s).

Definition bind {A B} (c : Py A) (k : A -> Py B) : Py B :=
  fun e s =>
    match c e s with
    | (Return a, s') => k a e s'
    | (Raise x, s') => (Raise x, s')
    end.

Notation "'let*' x ':=' c 'in' k" := (bind c (fun x => k))
  (at level 10, x name, c at level 100, k at level 200).

(** [try: c  except ImportError: h] *)
Definition try_except_ImportError {A} (c : Py A) (h : Py A) : Py A :=
  fun e s =>
    match c e s with
    | (Return a, s') => (Return a, s')
    | (Raise x, s') => if is_ImportError x then h e s' else (Raise x, s')
    end.

(** [for x in xs: acc = body(x, acc)] *)
Fixpoint for_in {A S} (xs : list A) (body : A -> S -> Py S) (acc : S) : Py S :=
  match xs with
  | [] => ret acc
  | x :: xs' => let* acc' := body x acc in for_in xs' body acc'
  end.

Definition lift {A} (r : result A) : Py A := fun _ s => (r, s).

(** [importlib.import_module(name)]: a module already in [sys.modules] is
    handed back; otherwise the import system looks for it, and a module
    it loads is entered in [sys.modules]. *)
Definition import_module (name : string) : Py pymodule :=
  fun e s =>
    match sys_modules s !! name with
    | Some m => (Return m, s)
    | None =>
        match find_module e name with
        | Return m =>
            (Return m, {| sys_modules := <[name := m]> (sys_modules s);
                          host_calls := host_calls s |})
        | Raise x => (Raise x, s)
        end
    end.

(** [subprocess.call(cmd, shell=True, stdout=devnull, stderr=devnull)] *)
Definition subprocess_call (cmd : string) : Py Z :=
  fun e s => (Return (returncode (sh e cmd)), s).

(** [pkg_handle.__file__] *)
Definition getattr_file (m : pymodule) : Py pyval :=
  match mod_file m with
  | Some v => ret v
  | None => raise AttributeError
  end.

(** ** The module *)

(** [import rospkg.os_detect]: the import system loads the package
    [rospkg], then its module [os_detect]. *)
Definition import_rospkg_os_detect : Py unit :=
  let* _ := import_module "rospkg" in
  let* _ := import_module "rospkg.os_detect" in
  ret tt.

(** [rospkg.os_detect.OsDetect().detect_os()] *)
Definition os_detector_detect_os : Py (string * string * string) :=
  fun e s => (detect_os e, s).

Definition get_host_os : Py string :=
  let* _ := import_rospkg_os_detect in
  let* os := os_detector_detect_os in
  ret (fst (fst os)).

Definition is_host_os_ubuntu : Py bool :=
  let* os := get_host_os in ret (String.eqb os "ubuntu").

Definition is_debian_package_installed (deb_pkg : string) : Py bool :=
  let* rc := subprocess_call ("dpkg -l " +:+ deb_pkg) in ret (Z.eqb rc 0).

(** ['/usr/local' in path]; [in] on [None] is a [TypeError]. *)
Definition is_a_pip_path_on_ubuntu (path : pyval) : result bool :=
  match path with
  | PyStr p => Return (str_contains "/usr/local" p)
  | PyNone => Raise TypeError
  end.

Definition is_python_package_installed (python_pkg : string) : Py bool :=
  try_except_ImportError
    (let* _ := import_module python_pkg in ret true)
    (ret false).

Definition is_python_package_installed_via_pip_on_ubuntu (python_pkg : string)
  : Py bool :=
  try_except_ImportError
    (let* pkg_handle := import_module python_pkg in
     let* file := getattr_file pkg_handle in
     lift (is_a_pip_path_on_ubuntu file))
    (ret false).

(** The rules read the registry [py_to_deb_packages], a global of the
    module; here it is a variable, the registry of the source is
    [py_to_deb_packages] below. *)
Variable registry : dict.

(** [if (warn_str != ''): return warn_str], and [None] otherwise. *)
Definition return_if_nonempty (warn_str : string) : option string :=
  if String.eqb warn_str "" then None else Some warn_str.

Definition python_module_install_check (ctx : Ctx) : Py (option string) :=
  let* warn_str :=
    for_in (dict_keys registry)
      (fun py_pkg warn_str =>
         let* installed := is_python_package_installed py_pkg in
         if negb installed
         then ret ((warn_str +:+ py_pkg) +:+ " -- ")
         else ret warn_str)
      "" in
  ret (return_if_nonempty warn_str).

Definition deb_install_check_on_ubuntu (ctx : Ctx) : Py (option string) :=
  let* ubuntu := is_host_os_ubuntu in
  if ubuntu then
    let* warn_str :=
      for_in (dict_keys registry)
        (fun py_pkg warn_str =>
           let* deb_pkg := lift (dict_get registry py_pkg) in
           let* installed := is_debian_package_installed deb_pkg in
           if negb installed
           then ret ((((warn_str +:+ py_pkg) +:+ " (") +:+ deb_pkg) +:+ ") -- ")
           else ret warn_str)
        "" in
    ret (return_if_nonempty warn_str)
  else ret None.

Definition pip_install_check_on_ubuntu (ctx : Ctx) : Py (option string) :=
  let* ubuntu := is_host_os_ubuntu in
  if ubuntu then
    let* warn_str :=
      for_in (dict_keys registry)
        (fun py_pkg warn_str =>
           let* via_pip := is_python_package_installed_via_pip_on_ubuntu py_pkg in
           if via_pip
           then ret ((warn_str +:+ py_pkg) +:+ " -- ")
           else ret warn_str)
        "" in
    ret (return_if_nonempty warn_str)
  else ret None.



(** [r[0](ctx)] *)
Definition call_rule (f : rule_fn) (ctx : Ctx) : Py (option string) :=
  match f with
  | Python_module_install_check => python_module_install_check ctx
  | Pip_install_check_on_ubuntu => pip_install_check_on_ubuntu ctx
  | Deb_install_check_on_ubuntu => deb_install_check_on_ubuntu ctx
  end.






End Checks.

Arguments state Ctx : clear implicits.
Arguments host_call Ctx : clear implicits.
Arguments Py Ctx A : clear implicits.

(** The registry of the source, in the order of the dictionary display. *)
Definition py_to_deb_packages : dict := [
  ("bloom", "python-bloom");
  ("catkin", "python-catkin");
  ("rospkg", "python-rospkg");
  ("rosinstall", "python-rosinstall");
  ("rosrelease", "python-rosrelease");
  ("rosdep", "python-rosdep")
].

(** ** What the rules are expected to compute *)

(** The outcome of importing [name] in state [s]. *)
Definition import_outcome {Ctx} (e : env) (s : state Ctx) (name : string)
  : result pymodule :=
  match sys_modules s !! name with
  | Some m => Return m
  | None => find_module e name
  end.

(** [name] is importable: the import gives a module. *)
Definition importable {Ctx} (e : env) (s : state Ctx) (name : string) : bool :=
  match import_outcome e s name with
  | Return _ => true
  | Raise _ => false
  end.

(** The exception of the import of [name] that [except ImportError] lets
    through, if there is one. *)
Definition uncaught_import {Ctx} (e : env) (s : state Ctx) (name : string)
  : option exn :=
  match import_outcome e s name with
  | Return _ => None
  | Raise x => if is_ImportError x then None else Some x
  end.

(** The same for the import of [name] followed by the test of its
    [__file__]: a module without [__file__] gives an [AttributeError], a
    [__file__] that is [None] a [TypeError]. *)
Definition uncaught_via_pip {Ctx} (e : env) (s : state Ctx) (name : string)
  : option exn :=
  match import_outcome e s name with
  | Return {| mod_file := Some (PyStr _) |} => None
  | Return {| mod_file := Some PyNone |} => Some TypeError
  | Return {| mod_file := None |} => Some AttributeError
  | Raise x => if is_ImportError x then None else Some x
  end.

(** The import of [name] gives a module whose [__file__] is a path in
    the tree where pip installs. *)
Definition imported_from_pip_path {Ctx} (e : env) (s : state Ctx)
  (name : string) : bool :=
  match import_outcome e s name with
  | Return {| mod_file := Some (PyStr p) |} => str_contains "/usr/local" p
  | _ => false
  end.

(** The exit status of the query [dpkg -l deb_pkg]. *)
Definition dpkg_exit_status (e : env) (deb_pkg : string) : Z :=
  returncode (sh e ("dpkg -l " +:+ deb_pkg)).


(** The concatenation of the entries of a warning string. *)
Definition concat_entries (entries : list string) : string :=
  foldr String.append "" entries.

(** What a rule returns for the offending entries: nothing when there are
    none, otherwise the entries, each followed by [" -- "]. *)
Definition warning_of (entries : list string) : option string :=
  match entries with
  | [] => None
  | _ => Some (concat_entries (map (fun n => n +:+ " -- ") entries))
  end.

(** The environment and registry of the specification's worked example. *)
Definition example_registry : dict :=
  [("alpha", "python-alpha"); ("beta", "python-beta")].

(** The import system of a host that has [rospkg] from its Debian
    package, and otherwise the modules that [find] gives. *)
Definition with_rospkg (find : string -> result pymodule) (name : string)
  : result pymodule :=
  if String.eqb name "rospkg"
  then Return {| mod_name := "rospkg";
                 mod_file := Some (PyStr "/usr/lib/python2.7/dist-packages/rospkg/__init__.py") |}
  else if String.eqb name "rospkg.os_detect"
  then Return {| mod_name := "rospkg.os_detect";
                 mod_file := Some (PyStr "/usr/lib/python2.7/dist-packages/rospkg/os_detect.py") |}
  else find name.

Definition example_env (os : string) : env := {|
  detect_os := Return (os, "12.04", "precise");
  sh cmd := if String.eqb cmd "dpkg -l python-beta" then Exited 0 else Exited 1;
  find_module :=
    with_rospkg (fun name =>
      if String.eqb name "beta"
      then Return {| mod_name := "beta";
                     mod_file := Some (PyStr "/usr/local/lib/beta") |}
      else Raise ImportError);
|}.

Definition fresh_state : state unit :=
  {| sys_modules := ∅; host_calls := [] |}.

(** Two states in which every import has the same outcome and the same
    calls to the host framework are on record. *)
Definition same_imports {Ctx} (e : env) (s s' : state Ctx) : Prop :=
  (forall name, import_outcome e s' name = import_outcome e s name) /\
  host_calls s' = host_calls s.

(** An Ubuntu host on which every registry package is installed from its
    Debian package, and the import of [bloom] stops on a [SyntaxError]. *)
Definition broken_bloom_env : env := {|
  detect_os := Return ("ubuntu", "12.04", "precise");
  sh cmd := Exited 0;
  find_module :=
    with_rospkg (fun name =>
      if String.eqb name "bloom"
      then Raise SyntaxError
      else Return {| mod_name := name;
                     mod_file := Some (PyStr ("/usr/lib/python2.7/dist-packages/"
                                              +:+ name +:+ "/__init__.py")) |});
|}.

(** Running [c] again, in the state its first run left, gives the result
    of the first run and leaves the state as it is. *)
Definition repeatable {Ctx A} (c : Py Ctx A) : Prop :=
  forall (e : env) (s : state Ctx), c e (snd (c e s)) = c e s.



(** An Ubuntu host without [dpkg] on the path of the shell. *)
Definition no_dpkg_env : env := {|
  detect_os := Return ("ubuntu", "12.04", "precise");
  sh cmd := CommandNotFound;
  find_module := with_rospkg (fun name => Raise ImportError);
|}.

(** An Ubuntu host on which [catkin] is a package whose [__file__] is
    [None], [rosdep] a module without [__file__], [rospkg] comes from its
    Debian package and the other packages are not there. *)
Definition no_file_env : env := {|
  detect_os := Return ("ubuntu", "12.04", "precise");
  sh cmd := Exited 0;
  find_module :=
    with_rospkg (fun name =>
      if String.eqb name "catkin"
      then Return {| mod_name := name; mod_file := Some PyNone |}
      else if String.eqb name "rosdep"
      then Return {| mod_name := name; mod_file := None |}
      else Raise ModuleNotFoundError);
|}.

(** The keys of a concrete dictionary are distinct. *)
Ltac nodup_keys := apply (bool_decide_unpack _); vm_compute; exact I.

(** A property of every key of a concrete dictionary, by evaluation. *)
Ltac each_key H :=
  repeat (apply elem_of_cons in H as [->|H]; [vm_compute; reflexivity|]);
  by apply elem_of_nil in H.

(** ** The table of all checks

    The part of the module marked as not used currently: the Python path,
    the test that a command is runnable and the table of the checks.
    Printing goes to the standard output, the list of the lines printed
    so far, which stays as it is when an exception passes. *)

Section Table.

Context {Ctx : Type}.

Local Notation "'let*' x ':=' c 'in' k" := (bind c (fun x => k))
  (at level 10, x name, c at level 100, k at level 200).

(** [sep.join(parts)] for a separator of one character *)
Fixpoint str_join (sep : Ascii.ascii) (parts : list string) : string :=
  match parts with
  | [] => ""
  | [p] => p
  | p :: ps => p +:+ String sep (str_join sep ps)
  end.

(** [s.split(sep)] for a separator of one character: the empty string
    gives one empty part, and so does each separator at an end or next
    to another one. *)
Fixpoint str_split (sep : Ascii.ascii) (s : string) : list string :=
  match s with
  | EmptyString => [""]
  | String c s' =>
      if Ascii.eqb c sep then "" :: str_split sep s'
      else match str_split sep s' with
           | [] => [String c ""]
           | p :: ps => String c p :: ps
           end
  end.

(** [os.environ['PYTHONPATH'].split(os.pathsep)]; [environ] is the
    environment of the process and [pathsep] the separator of the
    platform, [":"] on Linux. *)
Definition get_python_path_directories (environ : gmap string string)
    (pathsep : Ascii.ascii) : result (list string) :=
  match environ !! "PYTHONPATH" with
  | Some v => Return (str_split pathsep v)
  | None => Raise KeyError
  end.

(** [isinstance(x, subprocess.CalledProcessError)] *)
Definition is_CalledProcessError (x : exn) : bool :=
  match x with
  | PyException cls => String.eqb cls "CalledProcessError"
  | _ => false
  end.

(** [try: c  except subprocess.CalledProcessError: h] *)
Definition try_except_CalledProcessError {A} (c h : Py Ctx A) : Py Ctx A :=
  fun e s =>
    match c e s with
    | (Return a, s') => (Return a, s')
    | (Raise x, s') =>
        if is_CalledProcessError x then h e s' else (Raise x, s')
    end.

Definition is_command_runnable (cmd_name : string) : Py Ctx bool :=
  try_except_CalledProcessError
    (let* rc := subprocess_call ("command -v " +:+ cmd_name) in
     if Z.leb rc 0 then ret true else ret false)
    (ret false).

Definition yes_or_no (bool_val : bool) : string :=
  if bool_val then "Yes" else "No".

Fixpoint spaces (n : nat) : string :=
  match n with
  | O => ""
  | S n' => String Ascii.Space (spaces n')
  end.

(** ['{0:width}'.format(s)] on a string: [s], then spaces up to [width]
    characters; a longer [s] is kept whole. *)
Definition format_width (width : nat) (s : string) : string :=
  s +:+ spaces (width - String.length s).

(** ['{0:15} | {1:20} | {2:15} | {3:15} | {4:15}'.format(...)] *)
Definition format_table_line (python_pkg deb_pkg is_runnable is_deb_installed
    is_python_pkg_pip_installed : string) : string :=
  format_width 15 python_pkg +:+ " | " +:+
  format_width 20 deb_pkg +:+ " | " +:+
  format_width 15 is_runnable +:+ " | " +:+
  format_width 15 is_deb_installed +:+ " | " +:+
  format_width 15 is_python_pkg_pip_installed.

(** The checks that print: the state of the checks and the lines
    printed so far. *)
Definition Out (A : Type) : Type :=
  env -> state Ctx * list string -> result A * (state Ctx * list string).

Definition out_ret {A} (a : A) : Out A := fun _ st => (Return a, st).

Definition out_bind {A B} (c : Out A) (k : A -> Out B) : Out B :=
  fun e st =>
    match c e st with
    | (Return a, st') => k a e st'
    | (Raise x, st') => (Raise x, st')
    end.

Local Notation "'do*' x ':=' c 'in' k" := (out_bind c (fun x => k))
  (at level 10, x name, c at level 100, k at level 200).

(** A check run by a function that prints. *)
Definition run {A} (c : Py Ctx A) : Out A :=
  fun e st =>
    match c e (fst st) with
    | (r, s') => (r, (s', snd st))
    end.

(** [print(line)] *)
Definition print (line : string) : Out unit :=
  fun _ st => (Return tt, (fst st, (snd st ++ [line])%list)).

(** [for x in xs: body(x)] *)
Fixpoint out_for_in {A} (xs : list A) (body : A -> Out unit) : Out unit :=
  match xs with
  | [] => out_ret tt
  | x :: xs' => do* _ := body x in out_for_in xs' body
  end.

Definition print_table_line (python_pkg deb_pkg is_runnable is_deb_installed
    is_python_pkg_pip_installed : string) : Out unit :=
  print (format_table_line python_pkg deb_pkg is_runnable is_deb_installed
           is_python_pkg_pip_installed).

Variable registry : dict.

Definition check_and_print (python_pkg : string) : Out unit :=
  do* deb_pkg := run (lift (dict_get registry python_pkg)) in
  do* runnable := run (is_command_runnable python_pkg) in
  do* deb_installed := run (is_debian_package_installed deb_pkg) in
  do* via_pip := run (is_python_package_installed_via_pip_on_ubuntu python_pkg) in
  print_table_line python_pkg deb_pkg (yes_or_no runnable)
    (yes_or_no deb_installed) (yes_or_no via_pip).

Definition run_all_checks_and_print_table : Out unit :=
  do* _ := print_table_line "Py Package" "Deb Package" "Runnable"
             "Deb Installed" "Installed Via Pip" in
  do* _ := print_table_line "----------" "-----------" "--------"
             "-------------" "-----------------" in
  out_for_in (dict_keys registry) (fun key => check_and_print key).

End Table.

Arguments Out Ctx A : clear implicits.

(** A process environment with a Python path of three entries, the second
    one empty. *)
Definition example_environ : gmap string string :=
  {[ "PYTHONPATH" := "/opt/ros/lib::/usr/lib/python2.7" ]}.

(** The two lines at the head of the table. *)
Definition table_header : list string := [
  format_table_line "Py Package" "Deb Package" "Runnable" "Deb Installed"
    "Installed Via Pip";
  format_table_line "----------" "-----------" "--------" "-------------"
    "-----------------"
].

(** The exit status of the test [command -v cmd_name]. *)
Definition command_exit_status (e : env) (cmd_name : string) : Z :=
  returncode (sh e ("command -v " +:+ cmd_name)).

(** The line of the table for a registry pair: the two names, then
    whether the command of that name is runnable, whether the Debian
    package is installed and whether the module comes from the tree of
    pip. *)
Definition table_row {Ctx} (e : env) (s : state Ctx) (p : string * string)
  : string :=
  format_table_line p.1 p.2
    (yes_or_no (Z.leb (command_exit_status e p.1) 0))
    (yes_or_no (Z.eqb (dpkg_exit_status e p.2) 0))
    (yes_or_no (imported_from_pip_path e s p.1)).

(** Every import has the same outcome in the two states. *)
Definition imports_agree {Ctx} (e : env) (s s' : state Ctx) : Prop :=
  forall name, import_outcome e s name = import_outcome e s' name.

(** [c] gives the same result in two states in which the imports agree,
    and leaves the outcome of every import as it was. *)
Definition stable {Ctx A} (c : Py Ctx A) : Prop :=
  forall (e : env) (s s' : state Ctx),
    imports_agree e s s' ->
    fst (c e s) = fst (c e s') /\ imports_agree e s' (snd (c e s')).


(** A string that a rule has built: empty, or ended by [" -- "]. *)
Definition warn_str_shape (warn_str : string) : Prop :=
  warn_str = "" \/ exists body, warn_str = body +:+ " -- ".

(** A host on which every command is killed by the signal 9: the shell
    hands back the status -9. *)
Definition killed_env : env := {|
  detect_os := Return ("ubuntu", "12.04", "precise");
  sh cmd := Exited (-9);
  find_module := with_rospkg (fun name => Raise ImportError);
|}.

(** [os.pathsep] on Linux, the colon. *)
Definition linux_pathsep : Ascii.ascii :=
  Eval cbv in match ":" with String c _ => c | EmptyString => Ascii.Space end.

(** ** Strings and lists *)

Section Basics.

Lemma str_app_cons a (s t : string) : String a s +:+ t = String a (s +:+ t).
Proof. reflexivity. Qed.

Lemma str_app_nil_l (t : string) : "" +:+ t = t.
Proof. reflexivity. Qed.

Lemma str_app_assoc (a b c : string) : (a +:+ b) +:+ c = a +:+ (b +:+ c).
Proof.
  induction a as [|x a IH]; [reflexivity|].
  by rewrite !str_app_cons, IH.
Qed.

Lemma str_app_eq_nil (a b : string) : a +:+ b = "" -> a = "" /\ b = "".
Proof. destruct a; [rewrite str_app_nil_l; auto | rewrite str_app_cons; discriminate]. Qed.

Lemma prefix_app (n h : string) :
  String.prefix n h = true <-> exists post, h = n +:+ post.
Proof.
  revert h. induction n as [|a n IH]; intros h.
  - split; [intros _; exists h; reflexivity | by destruct h].
  - destruct h as [|b h]; simpl.
    + split; [discriminate | intros [post H]; rewrite str_app_cons in H; discriminate].
    + destruct (Ascii.ascii_dec a b) as [->|Hne].
      * rewrite IH. split; intros [post H]; exists post.
        -- by rewrite str_app_cons, H.
        -- rewrite str_app_cons in H. by injection H.
      * split; [discriminate|].
        intros [post H]. rewrite str_app_cons in H. injection H as ? ?. congruence.
Qed.

Lemma str_contains_nil (n : string) :
  str_contains n "" = String.prefix n "" || false.
Proof. reflexivity. Qed.

Lemma str_contains_cons (n : string) b (h : string) :
  str_contains n (String b h) = String.prefix n (String b h) || str_contains n h.
Proof. reflexivity. Qed.

Lemma str_contains_app (n h : string) :
  str_contains n h = true <-> exists pre post, h = pre +:+ (n +:+ post).
Proof.
  induction h as [|b h IH];
    [rewrite str_contains_nil | rewrite str_contains_cons];
    rewrite orb_true_iff, prefix_app.
  - split.
    + intros [[post H]|?]; [|discriminate]. exists "", post. by rewrite str_app_nil_l.
    + intros (pre & post & H). left. symmetry in H.
      apply str_app_eq_nil in H as [-> H]. exists post. by rewrite H.
  - rewrite IH. split.
    + intros [[post H]|(pre & post & H)].
      * exists "", post. by rewrite str_app_nil_l.
      * exists (String b pre), post. by rewrite str_app_cons, H.
    + intros (pre & post & H). destruct pre as [|a pre].
      * left. exists post. by rewrite str_app_nil_l in H.
      * right. rewrite str_app_cons in H. injection H as _ H. eauto.
Qed.

Lemma concat_entries_nonempty (f : string -> string) (l : list string) :
  (forall n, f n <> "") -> l <> [] -> concat_entries (map f l) <> "".
Proof.
  intros Hf Hl H. destruct l as [|n l]; [done|].
  simpl in H. apply str_app_eq_nil in H as [H _]. by apply (Hf n).
Qed.

Lemma entry_nonempty (n : string) : n +:+ " -- " <> "".
Proof. intros H. by apply str_app_eq_nil in H as [_ H]. Qed.

Lemma return_if_nonempty_entries (l : list string) :
  return_if_nonempty (concat_entries (map (fun n => n +:+ " -- ") l)) = warning_of l.
Proof.
  unfold return_if_nonempty, warning_of.
  destruct (String.eqb_spec (concat_entries (map (fun n => n +:+ " -- ") l)) "") as [H|H].
  - destruct l as [|n l]; [done|].
    exfalso. revert H. apply concat_entries_nonempty; [apply entry_nonempty | done].
  - destruct l; [done | reflexivity].
Qed.

Lemma filter_none {A} (P : A -> Prop) `{!forall x, Decision (P x)} (l : list A) :
  (forall x, x ∈ l -> ~ P x) -> filter P l = [].
Proof.
  induction l as [|x l IH]; intros Hl; [done|].
  rewrite filter_cons_False by (apply Hl; left).
  apply IH. intros y Hy. apply Hl. by right.
Qed.

(** A list with an element on which [f] is defined splits at the first
    such element. *)
Lemma first_some {A B} (f : A -> option B) (l : list A) (a : A) (b : B) :
  a ∈ l -> f a = Some b ->
  exists pre k post y,
    l = (pre ++ k :: post)%list /\ (forall j, j ∈ pre -> f j = None) /\
    f k = Some y.
Proof.
  induction l as [|x l IH]; intros Ha Hf.
  - by apply elem_of_nil in Ha.
  - destruct (f x) as [y|] eqn:Hx.
    + exists [], x, l, y. split; [done|]. split; [|done].
      intros j Hj. by apply elem_of_nil in Hj.
    + apply elem_of_cons in Ha as [->|Ha]; [congruence|].
      destruct (IH Ha Hf) as (pre & k & post & y & -> & Hpre & Hk).
      exists (x :: pre), k, post, y. split; [done|]. split; [|done].
      intros j Hj. apply elem_of_cons in Hj as [->|Hj]; [done | by apply Hpre].
Qed.

End Basics.

(** ** The import system and the loops of the rules *)

Section Imports.

Context {Ctx : Type} (e : env).
Implicit Types (s : state Ctx) (name : string).

Lemma bind_run {A B} (c : Py Ctx A) (k : A -> Py Ctx B) s a s' :
  c e s = (Return a, s') -> bind c k e s = k a e s'.
Proof. unfold bind. by intros ->. Qed.

Lemma bind_raise {A B} (c : Py Ctx A) (k : A -> Py Ctx B) s x s' :
  c e s = (Raise x, s') -> bind c k e s = (Raise x, s').
Proof. unfold bind. by intros ->. Qed.

Lemma if_ret {A} (b : bool) (x y : A) s :
  (if b then ret x else ret y) e s = (Return (if b then x else y), s).
Proof. by destruct b. Qed.


Lemma is_debian_package_installed_run deb_pkg s :
  is_debian_package_installed deb_pkg e s
  = (Return (Z.eqb (dpkg_exit_status e deb_pkg) 0), s).
Proof. reflexivity. Qed.

Lemma same_imports_refl s : same_imports e s s.
Proof. by split. Qed.

Lemma same_imports_trans s1 s2 s3 :
  same_imports e s1 s2 -> same_imports e s2 s3 -> same_imports e s1 s3.
Proof.
  intros [H1 C1] [H2 C2]. split; [|congruence].
  intros name. by rewrite H2, H1.
Qed.

Lemma import_module_run name s :
  exists s', import_module name e s = (import_outcome e s name, s') /\
             same_imports e s s'.
Proof.
  unfold import_module, import_outcome.
  destruct (sys_modules s !! name) as [m|] eqn:Hs.
  - exists s. split; [done | apply same_imports_refl].
  - destruct (find_module e name) as [m|x] eqn:Hf.
    + eexists. split; [reflexivity|]. split; [|done].
      intros n. unfold import_outcome. simpl.
      destruct (decide (name = n)) as [<-|Hne].
      * by rewrite lookup_insert_eq, Hs, Hf.
      * by rewrite lookup_insert_ne.
    + exists s. split; [done | apply same_imports_refl].
Qed.

(** A second import of the same name finds what the first one left. *)
Lemma import_module_again name s r s1 :
  import_module name e s = (r, s1) -> import_module name e s1 = (r, s1).
Proof.
  unfold import_module.
  destruct (sys_modules s !! name) as [m|] eqn:Hs.
  - intros [= <- <-]. by rewrite Hs.
  - destruct (find_module e name) as [m|x] eqn:Hf; intros [= <- <-].
    + simpl. by rewrite lookup_insert_eq.
    + by rewrite Hs.
Qed.

Lemma same_imports_importable s s' name :
  same_imports e s s' -> importable e s' name = importable e s name.
Proof. intros [H _]. unfold importable. by rewrite H. Qed.

Lemma same_imports_uncaught_import s s' name :
  same_imports e s s' -> uncaught_import e s' name = uncaught_import e s name.
Proof. intros [H _]. unfold uncaught_import. by rewrite H. Qed.

Lemma same_imports_uncaught_via_pip s s' name :
  same_imports e s s' -> uncaught_via_pip e s' name = uncaught_via_pip e s name.
Proof. intros [H _]. unfold uncaught_via_pip. by rewrite H. Qed.

Lemma same_imports_pip_path s s' name :
  same_imports e s s' ->
  imported_from_pip_path e s' name = imported_from_pip_path e s name.
Proof. intros [H _]. unfold imported_from_pip_path. by rewrite H. Qed.

Lemma is_python_package_installed_run name s :
  uncaught_import e s name = None ->
  exists s', is_python_package_installed name e s
             = (Return (importable e s name), s') /\ same_imports e s s'.
Proof.
  unfold uncaught_import, importable, is_python_package_installed,
    try_except_ImportError, bind, ret.
  intros H. destruct (import_module_run name s) as (s' & -> & Hs').
  destruct (import_outcome e s name) as [m|x]; [eauto|].
  destruct (is_ImportError x); [eauto | discriminate].
Qed.

Lemma is_python_package_installed_raise name s x :
  uncaught_import e s name = Some x ->
  exists s', is_python_package_installed name e s = (Raise x, s').
Proof.
  unfold uncaught_import, is_python_package_installed,
    try_except_ImportError, bind, ret.
  intros H. destruct (import_module_run name s) as (s' & -> & Hs').
  destruct (import_outcome e s name) as [m|y]; [discriminate|].
  destruct (is_ImportError y); [discriminate|].
  injection H as ->. eauto.
Qed.

Lemma via_pip_run name s :
  uncaught_via_pip e s name = None ->
  exists s', is_python_package_installed_via_pip_on_ubuntu name e s
             = (Return (imported_from_pip_path e s name), s') /\
             same_imports e s s'.
Proof.
  unfold uncaught_via_pip, imported_from_pip_path,
    is_python_package_installed_via_pip_on_ubuntu,
    try_except_ImportError, bind, ret.
  intros H. destruct (import_module_run name s) as (s' & -> & Hs').
  destruct (import_outcome e s name) as [[n [[|p]|]]|x]; try discriminate.
  - simpl. eauto.
  - destruct (is_ImportError x); [eauto | discriminate].
Qed.

Lemma via_pip_raise name s x :
  uncaught_via_pip e s name = Some x ->
  exists s', is_python_package_installed_via_pip_on_ubuntu name e s
             = (Raise x, s').
Proof.
  unfold uncaught_via_pip, is_python_package_installed_via_pip_on_ubuntu,
    try_except_ImportError, bind, ret.
  intros H. destruct (import_module_run name s) as (s' & -> & Hs').
  destruct (import_outcome e s name) as [[n [[|p]|]]|y];
    simplify_eq/=; eauto.
  destruct (is_ImportError y); simplify_eq. eauto.
Qed.

(** A loop whose body appends [piece x] for the selected [x] and keeps
    [Inv] returns the selected pieces in the order of the list. *)
Lemma for_in_collect {A} (Inv : state Ctx -> Prop)
    (body : A -> string -> Py Ctx string)
    (sel : A -> bool) (piece : A -> string) (xs : list A) :
  (forall x acc s, x ∈ xs -> Inv s ->
     exists s', body x acc e s
                = (Return (if sel x then acc +:+ piece x else acc), s') /\
                Inv s') ->
  forall acc s, Inv s ->
    exists s', for_in xs body acc e s
               = (Return (acc +:+ concat_entries
                                    (map piece (filter (fun x => sel x) xs))), s')
               /\ Inv s'.
Proof.
  induction xs as [|x xs IH]; intros Hbody acc s Hs.
  - exists s. split; [|done]. simpl. unfold ret.
    assert (acc +:+ "" = acc) as ->; [|done].
    induction acc as [|a acc IHa]; [done | by rewrite str_app_cons, IHa].
  - simpl. unfold bind.
    destruct (Hbody x acc s) as (s1 & -> & Hs1); [left | done |].
    destruct (IH (fun y acc s H => Hbody y acc s (list_elem_of_further _ _ _ H))
                 (if sel x then acc +:+ piece x else acc) s1 Hs1)
      as (s2 & -> & Hs2).
    exists s2. split; [|done]. do 2 f_equal.
    rewrite filter_cons. destruct (sel x); simpl; [|done].
    by rewrite str_app_assoc.
Qed.

(** A loop stops at the first element whose body raises. *)
Lemma for_in_raise {A S} (Inv : state Ctx -> Prop)
    (body : A -> S -> Py Ctx S) (pre : list A) (x : A) (post : list A) (exc : exn) :
  (forall y acc s, y ∈ pre -> Inv s ->
     exists acc' s', body y acc e s = (Return acc', s') /\ Inv s') ->
  (forall acc s, Inv s -> exists s', body x acc e s = (Raise exc, s')) ->
  forall acc s, Inv s ->
    exists s', for_in (pre ++ x :: post) body acc e s = (Raise exc, s').
Proof.
  induction pre as [|y pre IH]; intros Hpre Hx acc s Hs; simpl; unfold bind.
  - destruct (Hx acc s Hs) as (s' & ->). eauto.
  - destruct (Hpre y acc s) as (acc' & s1 & -> & Hs1); [left | done |].
    apply IH; [|done..].
    intros z a t Hz. apply Hpre. by right.
Qed.

End Imports.

(** ** The worked example of the specification *)

Example example_missing_modules :
  fst (python_module_install_check example_registry tt (example_env "ubuntu") fresh_state)
  = Return (Some "alpha -- ").
Proof. vm_compute. reflexivity. Qed.

Example example_pip_installed :
  fst (pip_install_check_on_ubuntu example_registry tt (example_env "ubuntu") fresh_state)
  = Return (Some "beta -- ").
Proof. vm_compute. reflexivity. Qed.

Example example_missing_native :
  fst (deb_install_check_on_ubuntu example_registry tt (example_env "ubuntu") fresh_state)
  = Return (Some "alpha (python-alpha) -- ").
Proof. vm_compute. reflexivity. Qed.

Example example_other_distribution :
  fst (python_module_install_check example_registry tt (example_env "fedora") fresh_state)
  = Return (Some "alpha -- ") /\
  fst (pip_install_check_on_ubuntu example_registry tt (example_env "fedora") fresh_state)
  = Return None /\
  fst (deb_install_check_on_ubuntu example_registry tt (example_env "fedora") fresh_state)
  = Return None.
Proof. vm_compute. auto. Qed.

(** ** The predicates *)

Section Predicates.

Context {Ctx : Type}.
Implicit Types (e : env) (s : state Ctx).

(** C4: [is_a_pip_path_on_ubuntu] depends on its string argument alone (it
    takes neither the environment nor the state) and is true exactly when
    the path contains ["/usr/local"]: when the path is some [pre], then
    ["/usr/local"], then some [post].  It is true for
    ["/usr/local/lib/foo"] and false for ["/usr/lib/foo"]. *)
Theorem is_a_pip_path_on_ubuntu_substring :
  (forall path : string,
     exists b, is_a_pip_path_on_ubuntu (PyStr path) = Return b /\
               (b = true <->
                exists pre post, path = pre +:+ "/usr/local" +:+ post)) /\
  is_a_pip_path_on_ubuntu (PyStr "/usr/local/lib/foo") = Return true /\
  is_a_pip_path_on_ubuntu (PyStr "/usr/lib/foo") = Return false.
Proof.
  split; [|split; reflexivity].
  intros path. exists (str_contains "/usr/local" path).
  split; [reflexivity | apply str_contains_app].
Qed.

(** C5: [is_debian_package_installed] returns, without raising, [True]
    exactly when the query [dpkg -l deb_pkg] exits with status zero;
    a query the shell cannot launch (command not found, not executable)
    gives [False], as a package that is not installed does. *)
Theorem is_debian_package_installed_exit_status deb_pkg e s :
  exists b,
    is_debian_package_installed deb_pkg e s = (Return b, s) /\
    (b = true <-> dpkg_exit_status e deb_pkg = 0%Z) /\
    (forall code, sh e ("dpkg -l " +:+ deb_pkg) = Exited code ->
                  (b = true <-> code = 0%Z)) /\
    (sh e ("dpkg -l " +:+ deb_pkg) = CommandNotFound -> b = false) /\
    (sh e ("dpkg -l " +:+ deb_pkg) = CommandNotExecutable -> b = false).
Proof.
  exists (Z.eqb (dpkg_exit_status e deb_pkg) 0).
  unfold dpkg_exit_status. split; [reflexivity|].
  split; [apply Z.eqb_eq|].
  split; [intros code ->; apply Z.eqb_eq|].
  split; intros ->; reflexivity.
Qed.

(** C6, as the code has it: when the import of the package fails with
    an [ImportError],
    [is_python_package_installed_via_pip_on_ubuntu] returns [False]; when
    the import gives a module, it returns what [is_a_pip_path_on_ubuntu]
    gives on the module's [__file__]. *)
Theorem via_pip_follows_import python_pkg e s :
  (forall x s', import_module python_pkg e s = (Raise x, s') ->
                is_ImportError x = true ->
                is_python_package_installed_via_pip_on_ubuntu python_pkg e s
                = (Return false, s')) /\
  (forall m file s', import_module python_pkg e s = (Return m, s') ->
                     mod_file m = Some file ->
                     is_python_package_installed_via_pip_on_ubuntu python_pkg e s
                     = (is_a_pip_path_on_ubuntu file, s')).
Proof.
  unfold is_python_package_installed_via_pip_on_ubuntu,
    try_except_ImportError, bind.
  split.
  - intros x s' -> ->. reflexivity.
  - intros m file s' -> Hfile. unfold getattr_file. rewrite Hfile.
    by destruct file.
Qed.

(** C9: each of the four predicates, run a second time with the same
    argument in the state its first run left, gives the result of the
    first run, and leaves that state as it is. *)
Theorem predicates_repeatable (python_pkg deb_pkg : string) (path : pyval) :
  repeatable (Ctx := Ctx) (is_python_package_installed python_pkg) /\
  repeatable (Ctx := Ctx)
    (is_python_package_installed_via_pip_on_ubuntu python_pkg) /\
  repeatable (Ctx := Ctx) (lift (is_a_pip_path_on_ubuntu path)) /\
  repeatable (Ctx := Ctx) (is_debian_package_installed deb_pkg).
Proof.
  repeat split; intros e s; try reflexivity.
  - unfold is_python_package_installed, try_except_ImportError, bind, ret.
    destruct (import_module python_pkg e s) as [r s1] eqn:H.
    apply import_module_again in H.
    destruct r as [m|x]; simpl; [by rewrite H|].
    destruct (is_ImportError x) eqn:Hx; simpl; by rewrite H, ?Hx.
  - unfold is_python_package_installed_via_pip_on_ubuntu,
      try_except_ImportError, bind, ret.
    destruct (import_module python_pkg e s) as [r s1] eqn:H.
    apply import_module_again in H.
    destruct r as [m|x]; simpl.
    + destruct (getattr_file m e s1) as [[file|y] s2] eqn:Hg.
      * assert (s2 = s1) as ->.
        { unfold getattr_file in Hg. destruct (mod_file m); by injection Hg. }
        unfold lift. destruct (is_a_pip_path_on_ubuntu file) as [b|z] eqn:Hp; simpl.
        -- by rewrite H, Hg, Hp.
        -- destruct (is_ImportError z) eqn:Hz; simpl; by rewrite H, Hg, Hp, ?Hz.
      * assert (s2 = s1) as ->.
        { unfold getattr_file in Hg. destruct (mod_file m); by injection Hg. }
        destruct (is_ImportError y) eqn:Hy; simpl; by rewrite H, Hg, ?Hy.
    + destruct (is_ImportError x) eqn:Hx; simpl; by rewrite H, ?Hx.
Qed.

End Predicates.

(** ** The rules *)

Section Rules.

Context {Ctx : Type}.
Implicit Types (R : dict) (ctx : Ctx) (e : env) (s : state Ctx).

Lemma dict_get_elem_of R (p : string * string) :
  wf_dict R -> p ∈ R -> dict_get R p.1 = Return p.2.
Proof.
  unfold wf_dict, dict_keys. induction R as [|[k v] R IH]; intros Hnd Hp.
  - by apply elem_of_nil in Hp.
  - apply NoDup_cons in Hnd as [Hk Hnd]. simpl.
    apply elem_of_cons in Hp as [->|Hp]; simpl.
    + by rewrite String.eqb_refl.
    + destruct (String.eqb_spec k p.1) as [->|_]; [|by apply IH].
      exfalso. apply Hk. apply list_elem_of_fmap. by exists p.
Qed.

Lemma import_rospkg_os_detect_same e s :
  same_imports e s (snd (import_rospkg_os_detect e s)).
Proof.
  unfold import_rospkg_os_detect, bind.
  destruct (import_module_run e "rospkg" s) as (s1 & -> & Hs1).
  destruct (import_outcome e s "rospkg") as [m|x]; [|done].
  destruct (import_module_run e "rospkg.os_detect" s1) as (s2 & -> & Hs2).
  destruct (import_outcome e s1 "rospkg.os_detect") as [m'|x];
    by apply (same_imports_trans e s s1 s2).
Qed.


Lemma get_host_os_same e s : same_imports e s (snd (get_host_os e s)).
Proof.
  pose proof (import_rospkg_os_detect_same e s) as Himp.
  unfold get_host_os, bind at 1.
  destruct (import_rospkg_os_detect e s) as [[[]|x] s1]; [|done].
  unfold bind, os_detector_detect_os. by destruct (detect_os e).
Qed.

Lemma is_host_os_ubuntu_run e s os s0 :
  get_host_os e s = (Return os, s0) ->
  is_host_os_ubuntu e s = (Return (String.eqb os "ubuntu"), s0).
Proof. intros H. unfold is_host_os_ubuntu. by rewrite (bind_run e _ _ _ _ _ H). Qed.


(** The loop of [python_module_install_check]. *)
Lemma missing_modules_loop e s (keys : list string) :
  (forall k, k ∈ keys -> uncaught_import e s k = None) ->
  exists s',
    for_in keys
      (fun py_pkg warn_str =>
         bind (is_python_package_installed py_pkg) (fun installed =>
         if negb installed
         then ret ((warn_str +:+ py_pkg) +:+ " -- ")
         else ret warn_str)) "" e s
    = (Return (concat_entries
                 (map (fun n => n +:+ " -- ")
                      (filter (fun k => negb (importable e s k)) keys))), s')
    /\ same_imports e s s'.
Proof.
  intros Hkeys.
  apply (for_in_collect e (same_imports e s) _
           (fun k => negb (importable e s k)) (fun n => n +:+ " -- "));
    [|apply same_imports_refl].
  intros k acc s1 Hk Hs1. unfold bind.
  destruct (is_python_package_installed_run e k s1) as (s2 & -> & Hs2).
  { rewrite (same_imports_uncaught_import e s s1) by done. by apply Hkeys. }
  rewrite (same_imports_importable e s s1) by done.
  exists s2. split; [|by eapply same_imports_trans].
  destruct (importable e s k); simpl; unfold ret; by rewrite ?str_app_assoc.
Qed.

(** The loop of [pip_install_check_on_ubuntu]. *)
Lemma pip_installed_loop e s s1 (keys : list string) :
  same_imports e s s1 ->
  (forall k, k ∈ keys -> uncaught_via_pip e s k = None) ->
  exists s',
    for_in keys
      (fun py_pkg warn_str =>
         bind (is_python_package_installed_via_pip_on_ubuntu py_pkg)
           (fun via_pip =>
         if via_pip
         then ret ((warn_str +:+ py_pkg) +:+ " -- ")
         else ret warn_str)) "" e s1
    = (Return (concat_entries
                 (map (fun n => n +:+ " -- ")
                      (filter (fun k => imported_from_pip_path e s k) keys))), s')
    /\ same_imports e s s'.
Proof.
  intros Hstart Hkeys.
  apply (for_in_collect e (same_imports e s) _
           (fun k => imported_from_pip_path e s k) (fun n => n +:+ " -- "));
    [|done].
  intros k acc t Hk Ht. unfold bind.
  destruct (via_pip_run e k t) as (s2 & -> & Hs2).
  { rewrite (same_imports_uncaught_via_pip e s t) by done. by apply Hkeys. }
  rewrite (same_imports_pip_path e s t) by done.
  exists s2. split; [|by eapply same_imports_trans].
  destruct (imported_from_pip_path e s k); simpl; unfold ret;
    by rewrite ?str_app_assoc.
Qed.


(** C1, as the code has it: when the import of every registry name
    either gives a module or fails with an [ImportError],
    [python_module_install_check] returns the registry names that are not
    importable, in the order of the registry, each once and each followed
    by [" -- "], and returns [None] when there is no such name, so when
    every registry name is importable. *)
Theorem python_module_install_check_missing R ctx e s :
  wf_dict R ->
  (forall k, k ∈ dict_keys R -> uncaught_import e s k = None) ->
  let missing := filter (fun k => negb (importable e s k)) (dict_keys R) in
  fst (python_module_install_check R ctx e s) = Return (warning_of missing) /\
  NoDup missing /\
  ((forall k, k ∈ dict_keys R -> importable e s k = true) ->
   fst (python_module_install_check R ctx e s) = Return None).
Proof.
  intros Hwf Hkeys missing.
  assert (fst (python_module_install_check R ctx e s)
          = Return (warning_of missing)) as Hrun.
  { unfold python_module_install_check.
    destruct (missing_modules_loop e s (dict_keys R) Hkeys) as (s' & Hloop & _).
    rewrite (bind_run e _ _ _ _ _ Hloop). unfold ret. simpl.
    by rewrite return_if_nonempty_entries. }
  split; [done|]. split; [by apply NoDup_filter|].
  intros Hall. rewrite Hrun.
  assert (missing = []) as ->; [|done].
  apply filter_none. intros k Hk. rewrite (Hall k Hk). simpl. auto.
Qed.

(** C2, as the code has it: on a host whose detected distribution is
    not Ubuntu, [pip_install_check_on_ubuntu] returns [None] and imports
    nothing but what the detection has imported, whatever the import of
    the packages would give.  On Ubuntu, when the import of every
    registry name either fails with an [ImportError] or gives a module
    whose [__file__] is a string, it returns the registry names whose
    module's [__file__] contains ["/usr/local"], in the order of the
    registry, each once and each followed by [" -- "], and [None] when
    there is no such name. *)
Theorem pip_install_check_on_ubuntu_conflicts R ctx e s os s0 :
  get_host_os e s = (Return os, s0) ->
  (os <> "ubuntu" -> pip_install_check_on_ubuntu R ctx e s = (Return None, s0)) /\
  (os = "ubuntu" -> wf_dict R ->
   (forall k, k ∈ dict_keys R -> uncaught_via_pip e s k = None) ->
   let conflicting :=
     filter (fun k => imported_from_pip_path e s k) (dict_keys R) in
   fst (pip_install_check_on_ubuntu R ctx e s) = Return (warning_of conflicting)
   /\ NoDup conflicting).
Proof.
  intros Hos. unfold pip_install_check_on_ubuntu.
  rewrite (bind_run e _ _ _ _ _ (is_host_os_ubuntu_run e s _ _ Hos)).
  split.
  - intros Hne. by apply String.eqb_neq in Hne as ->.
  - intros -> Hwf Hkeys. simpl.
    split; [|by apply NoDup_filter].
    destruct (pip_installed_loop e s s0 (dict_keys R)) as (s' & Hloop & _);
      [|done|].
    { pose proof (get_host_os_same e s) as Hsame. by rewrite Hos in Hsame. }
    rewrite (bind_run e _ _ _ _ _ Hloop). unfold ret. simpl.
    by rewrite return_if_nonempty_entries.
Qed.


End Rules.

(** ** The calls to the host framework *)

Section Dispatch.

Context {Ctx : Type}.
Implicit Types (R : dict) (ctx : Ctx) (e : env) (s : state Ctx).










Lemma imports_agree_refl e s : imports_agree e s s.
Proof. by intros name. Qed.

Lemma imports_agree_sym e s s' : imports_agree e s s' -> imports_agree e s' s.
Proof. intros H name. by rewrite H. Qed.

Lemma imports_agree_trans e s1 s2 s3 :
  imports_agree e s1 s2 -> imports_agree e s2 s3 -> imports_agree e s1 s3.
Proof. intros H1 H2 name. by rewrite H1, H2. Qed.


Lemma stable_ret {A} (a : A) : stable (Ctx := Ctx) (ret a).
Proof. intros e s s' H. split; [done | apply imports_agree_refl]. Qed.

Lemma stable_lift {A} (r : result A) : stable (Ctx := Ctx) (lift r).
Proof. intros e s s' H. split; [done | apply imports_agree_refl]. Qed.

Lemma stable_raise {A} (x : exn) : stable (Ctx := Ctx) (raise (A := A) x).
Proof. intros e s s' H. split; [done | apply imports_agree_refl]. Qed.

Lemma stable_if {A} (b : bool) (c1 c2 : Py Ctx A) :
  stable c1 -> stable c2 -> stable (if b then c1 else c2).
Proof. by destruct b. Qed.

Lemma stable_bind {A B} (c : Py Ctx A) (k : A -> Py Ctx B) :
  stable c -> (forall a, stable (k a)) -> stable (bind c k).
Proof.
  intros Hc Hk e s s' Hs. unfold bind.
  destruct (Hc e s s' Hs) as [Hfst Hs'].
  destruct (Hc e s s (imports_agree_refl e s)) as [_ Hs1].
  destruct (c e s) as [r s1], (c e s') as [r' s1']. simpl in *. subst r'.
  destruct r as [a|x]; [|done].
  assert (imports_agree e s1 s1') as H1.
  { apply (imports_agree_trans e s1 s); [by apply imports_agree_sym|].
    by apply (imports_agree_trans e s s'). }
  destruct (Hk a e s1 s1' H1) as [Hk1 Hk2]. split; [done|].
  by apply (imports_agree_trans e s' s1').
Qed.

Lemma stable_try {A} (c h : Py Ctx A) :
  stable c -> stable h -> stable (try_except_ImportError c h).
Proof.
  intros Hc Hh e s s' Hs. unfold try_except_ImportError.
  destruct (Hc e s s' Hs) as [Hfst Hs'].
  destruct (Hc e s s (imports_agree_refl e s)) as [_ Hs1].
  destruct (c e s) as [r s1], (c e s') as [r' s1']. simpl in *. subst r'.
  destruct r as [a|x]; [done|].
  destruct (is_ImportError x); [|done].
  assert (imports_agree e s1 s1') as H1.
  { apply (imports_agree_trans e s1 s); [by apply imports_agree_sym|].
    by apply (imports_agree_trans e s s'). }
  destruct (Hh e s1 s1' H1) as [Hh1 Hh2]. split; [done|].
  by apply (imports_agree_trans e s' s1').
Qed.

Lemma stable_for_in {A S} (xs : list A) (body : A -> S -> Py Ctx S) acc :
  (forall x a, stable (body x a)) -> stable (for_in xs body acc).
Proof.
  intros Hbody. revert acc. induction xs as [|x xs IH]; intros acc.
  - apply stable_ret.
  - simpl. apply stable_bind; [apply Hbody | apply IH].
Qed.

Lemma stable_import name : stable (Ctx := Ctx) (import_module name).
Proof.
  intros e s s' Hs.
  destruct (import_module_run e name s) as (s1 & -> & _).
  destruct (import_module_run e name s') as (s1' & -> & Hs1' & _).
  simpl. split; [apply Hs|]. intros n. by rewrite Hs1'.
Qed.

Lemma stable_is_host_os_ubuntu : stable (Ctx := Ctx) is_host_os_ubuntu.
Proof.
  apply stable_bind; [|intros; apply stable_ret].
  apply stable_bind.
  - apply stable_bind; [apply stable_import|]. intros _.
    apply stable_bind; [apply stable_import|]. intros _.
    apply stable_ret.
  - intros _. apply stable_bind; [|intros; apply stable_ret].
    intros e s s' Hs. split; [done | apply imports_agree_refl].
Qed.

Lemma stable_rule R f ctx : stable (call_rule R f ctx).
Proof.
  destruct f; simpl.
  - apply stable_bind; [|intros; apply stable_ret].
    apply stable_for_in. intros k acc.
    apply stable_bind; [|intros; apply stable_if; apply stable_ret].
    apply stable_try; [|apply stable_ret].
    apply stable_bind; [apply stable_import|]. intros; apply stable_ret.
  - apply stable_bind; [apply stable_is_host_os_ubuntu|].
    intros b. apply stable_if; [|apply stable_ret].
    apply stable_bind; [|intros; apply stable_ret].
    apply stable_for_in. intros k acc.
    apply stable_bind; [|intros; apply stable_if; apply stable_ret].
    apply stable_try; [|apply stable_ret].
    apply stable_bind; [apply stable_import|]. intros m.
    apply stable_bind; [|intros; apply stable_lift].
    unfold getattr_file. destruct (mod_file m);
      [apply stable_ret | apply stable_raise].
  - apply stable_bind; [apply stable_is_host_os_ubuntu|].
    intros b. apply stable_if; [|apply stable_ret].
    apply stable_bind; [|intros; apply stable_ret].
    apply stable_for_in. intros k acc.
    apply stable_bind; [apply stable_lift|]. intros deb.
    apply stable_bind; [|intros; apply stable_if; apply stable_ret].
    intros e s s' Hs. split; [done | apply imports_agree_refl].
Qed.





End Dispatch.

(** ** Exceptions that the predicates let through *)

Section Uncaught.

Context {Ctx : Type}.
Implicit Types (R : dict) (ctx : Ctx) (e : env) (s : state Ctx).

Lemma missing_modules_loop_raise e s (pre : list string) k post y :
  (forall j, j ∈ pre -> uncaught_import e s j = None) ->
  uncaught_import e s k = Some y ->
  exists s',
    for_in (pre ++ k :: post)
      (fun py_pkg warn_str =>
         bind (is_python_package_installed py_pkg) (fun installed =>
         if negb installed
         then ret ((warn_str +:+ py_pkg) +:+ " -- ")
         else ret warn_str)) "" e s
    = (Raise y, s').
Proof.
  intros Hpre Hk.
  apply (for_in_raise e (same_imports e s)); [| |apply same_imports_refl].
  - intros j acc s1 Hj Hs1.
    destruct (is_python_package_installed_run e j s1) as (s2 & Hrun & Hs2).
    { rewrite (same_imports_uncaught_import e s s1) by done. by apply Hpre. }
    rewrite (bind_run e _ _ _ _ _ Hrun), if_ret.
    eexists _, s2. split; [done | by eapply same_imports_trans].
  - intros acc s1 Hs1.
    destruct (is_python_package_installed_raise e k s1 y) as (s2 & Hrun).
    { by rewrite (same_imports_uncaught_import e s s1). }
    exists s2. by rewrite (bind_raise e _ _ _ _ _ Hrun).
Qed.

Lemma pip_installed_loop_raise e s s1 (pre : list string) k post y :
  same_imports e s s1 ->
  (forall j, j ∈ pre -> uncaught_via_pip e s j = None) ->
  uncaught_via_pip e s k = Some y ->
  exists s',
    for_in (pre ++ k :: post)
      (fun py_pkg warn_str =>
         bind (is_python_package_installed_via_pip_on_ubuntu py_pkg)
           (fun via_pip =>
         if via_pip
         then ret ((warn_str +:+ py_pkg) +:+ " -- ")
         else ret warn_str)) "" e s1
    = (Raise y, s').
Proof.
  intros Hstart Hpre Hk.
  apply (for_in_raise e (same_imports e s)); [| |done].
  - intros j acc t Hj Ht.
    destruct (via_pip_run e j t) as (s2 & Hrun & Hs2).
    { rewrite (same_imports_uncaught_via_pip e s t) by done. by apply Hpre. }
    rewrite (bind_run e _ _ _ _ _ Hrun), if_ret.
    eexists _, s2. split; [done | by eapply same_imports_trans].
  - intros acc t Ht.
    destruct (via_pip_raise e k t y) as (s2 & Hrun).
    { by rewrite (same_imports_uncaught_via_pip e s t). }
    exists s2. by rewrite (bind_raise e _ _ _ _ _ Hrun).
Qed.

(** C10: an exception of the import that is not an [ImportError] comes
    out of both import predicates as it is, and so do the
    [AttributeError] of a module without [__file__] and the [TypeError]
    of a [__file__] that is [None] out of
    [is_python_package_installed_via_pip_on_ubuntu].  When a registry
    package is in one of these cases, the rule that tests it does not
    return: it raises the exception of the first such package of the
    registry. *)
Theorem only_ImportError_is_caught R ctx e s name x :
  (forall s', import_module name e s = (Raise x, s') ->
              is_ImportError x = false ->
              is_python_package_installed name e s = (Raise x, s') /\
              is_python_package_installed_via_pip_on_ubuntu name e s
              = (Raise x, s')) /\
  (forall m s', import_module name e s = (Return m, s') ->
                mod_file m = None ->
                is_python_package_installed_via_pip_on_ubuntu name e s
                = (Raise AttributeError, s')) /\
  (forall m s', import_module name e s = (Return m, s') ->
                mod_file m = Some PyNone ->
                is_python_package_installed_via_pip_on_ubuntu name e s
                = (Raise TypeError, s')) /\
  (name ∈ dict_keys R -> uncaught_import e s name = Some x ->
   exists pre k post y,
     dict_keys R = (pre ++ k :: post)%list /\
     (forall j, j ∈ pre -> uncaught_import e s j = None) /\
     uncaught_import e s k = Some y /\
     fst (python_module_install_check R ctx e s) = Raise y) /\
  (fst (get_host_os e s) = Return "ubuntu" ->
   name ∈ dict_keys R -> uncaught_via_pip e s name = Some x ->
   exists pre k post y,
     dict_keys R = (pre ++ k :: post)%list /\
     (forall j, j ∈ pre -> uncaught_via_pip e s j = None) /\
     uncaught_via_pip e s k = Some y /\
     fst (pip_install_check_on_ubuntu R ctx e s) = Raise y).
Proof.
  split; [|split; [|split; [|split]]].
  - intros s' Himp Hx. split.
    + unfold is_python_package_installed, try_except_ImportError, bind.
      by rewrite Himp, Hx.
    + unfold is_python_package_installed_via_pip_on_ubuntu,
        try_except_ImportError, bind.
      by rewrite Himp, Hx.
  - intros m s' Himp Hfile.
    unfold is_python_package_installed_via_pip_on_ubuntu,
      try_except_ImportError, bind, getattr_file.
    rewrite Himp, Hfile. reflexivity.
  - intros m s' Himp Hfile.
    unfold is_python_package_installed_via_pip_on_ubuntu,
      try_except_ImportError, bind, getattr_file.
    rewrite Himp, Hfile. reflexivity.
  - intros Hin Hx.
    destruct (first_some (uncaught_import e s) _ _ _ Hin Hx)
      as (pre & k & post & y & Hsplit & Hpre & Hk).
    exists pre, k, post, y. repeat (split; [done|]).
    unfold python_module_install_check. rewrite Hsplit.
    destruct (missing_modules_loop_raise e s pre k post y Hpre Hk)
      as (s' & Hloop).
    by rewrite (bind_raise e _ _ _ _ _ Hloop).
  - intros Hos Hin Hx.
    destruct (first_some (uncaught_via_pip e s) _ _ _ Hin Hx)
      as (pre & k & post & y & Hsplit & Hpre & Hk).
    exists pre, k, post, y. repeat (split; [done|]).
    pose proof (get_host_os_same e s) as Hsame.
    destruct (get_host_os e s) as [os s0] eqn:Hget. simpl in Hos, Hsame.
    subst os. unfold pip_install_check_on_ubuntu.
    rewrite (bind_run e _ _ _ _ _ (is_host_os_ubuntu_run e s _ _ Hget)).
    simpl. rewrite Hsplit.
    destruct (pip_installed_loop_raise e s s0 pre k post y Hsame Hpre Hk)
      as (s' & Hloop).
    by rewrite (bind_raise e _ _ _ _ _ Hloop).
Qed.

End Uncaught.

(** ** The properties at work on concrete hosts *)

Lemma python_module_install_check_missing_witness :
  wf_dict example_registry /\
  (forall k, k ∈ dict_keys example_registry ->
             uncaught_import (example_env "ubuntu") fresh_state k = None) /\
  fst (python_module_install_check example_registry tt
         (example_env "ubuntu") fresh_state)
  = Return (Some "alpha -- ").
Proof.
  assert (wf_dict example_registry) as Hwf by nodup_keys.
  assert (forall k, k ∈ dict_keys example_registry ->
            uncaught_import (example_env "ubuntu") fresh_state k = None)
    as Hkeys by (intros k Hk; each_key Hk).
  split; [exact Hwf|]. split; [exact Hkeys|].
  destruct (python_module_install_check_missing example_registry tt
              (example_env "ubuntu") fresh_state Hwf Hkeys) as [Hrun _].
  rewrite Hrun. vm_compute. reflexivity.
Defined.

(** With the registry of the source, on a host where the import of
    [bloom] stops on a [SyntaxError], [python_module_install_check] raises
    that error: it returns neither the names that are not importable nor
    [None]. *)
Lemma python_module_install_check_raises_SyntaxError :
  wf_dict py_to_deb_packages /\
  fst (python_module_install_check py_to_deb_packages tt
         broken_bloom_env fresh_state)
  = Raise SyntaxError /\
  fst (python_module_install_check py_to_deb_packages tt
         broken_bloom_env fresh_state)
  <> Return (warning_of
               (filter (fun k => negb (importable broken_bloom_env fresh_state k))
                       (dict_keys py_to_deb_packages))).
Proof.
  split; [nodup_keys|].
  split; [vm_compute; reflexivity | vm_compute; discriminate].
Qed.

Lemma pip_install_check_on_ubuntu_conflicts_witness :
  fst (get_host_os (example_env "fedora") fresh_state) = Return "fedora" /\
  fst (pip_install_check_on_ubuntu example_registry tt
         (example_env "fedora") fresh_state)
  = Return None /\
  fst (get_host_os (example_env "ubuntu") fresh_state) = Return "ubuntu" /\
  (forall k, k ∈ dict_keys example_registry ->
             uncaught_via_pip (example_env "ubuntu") fresh_state k = None) /\
  fst (pip_install_check_on_ubuntu example_registry tt
         (example_env "ubuntu") fresh_state)
  = Return (Some "beta -- ").
Proof.
  assert (wf_dict example_registry) as Hwf by nodup_keys.
  assert (forall k, k ∈ dict_keys example_registry ->
            uncaught_via_pip (example_env "ubuntu") fresh_state k = None)
    as Hkeys by (intros k Hk; each_key Hk).
  split; [vm_compute; reflexivity|]. split; [|split; [vm_compute; reflexivity|]].
  - destruct (get_host_os (example_env "fedora") fresh_state)
      as [r s0] eqn:Hget.
    assert (r = Return "fedora") as -> by (vm_compute in Hget; congruence).
    destruct (pip_install_check_on_ubuntu_conflicts example_registry tt
                (example_env "fedora") fresh_state "fedora" s0 Hget)
      as [Hother _].
    by rewrite Hother.
  - split; [exact Hkeys|].
    destruct (get_host_os (example_env "ubuntu") fresh_state)
      as [r s0] eqn:Hget.
    assert (r = Return "ubuntu") as -> by (vm_compute in Hget; congruence).
    destruct (pip_install_check_on_ubuntu_conflicts example_registry tt
                (example_env "ubuntu") fresh_state "ubuntu" s0 Hget)
      as [_ Hubuntu].
    destruct (Hubuntu eq_refl Hwf Hkeys) as [Hrun _].
    rewrite Hrun. vm_compute. reflexivity.
Defined.

(** With the registry of the source, on an Ubuntu host where the import
    of [bloom] stops on a [SyntaxError], [pip_install_check_on_ubuntu]
    raises that error: it does not return the names whose module is in
    the tree of pip. *)
Lemma pip_install_check_on_ubuntu_raises_SyntaxError :
  fst (get_host_os broken_bloom_env fresh_state) = Return "ubuntu" /\
  fst (pip_install_check_on_ubuntu py_to_deb_packages tt
         broken_bloom_env fresh_state)
  = Raise SyntaxError /\
  fst (pip_install_check_on_ubuntu py_to_deb_packages tt
         broken_bloom_env fresh_state)
  <> Return (warning_of
               (filter (fun k => imported_from_pip_path broken_bloom_env
                                   fresh_state k)
                       (dict_keys py_to_deb_packages))).
Proof.
  split; [vm_compute; reflexivity|].
  split; [vm_compute; reflexivity | vm_compute; discriminate].
Qed.


Lemma is_debian_package_installed_exit_status_witness :
  sh (example_env "ubuntu") ("dpkg -l " +:+ "python-alpha") = Exited 1 /\
  is_debian_package_installed "python-alpha" (example_env "ubuntu") fresh_state
  = (Return false, fresh_state) /\
  sh no_dpkg_env ("dpkg -l " +:+ "python-bloom") = CommandNotFound /\
  is_debian_package_installed "python-bloom" no_dpkg_env fresh_state
  = (Return false, fresh_state).
Proof.
  split; [reflexivity|]. split; [|split; [reflexivity|]].
  - destruct (is_debian_package_installed_exit_status "python-alpha"
                (example_env "ubuntu") fresh_state)
      as (b & Hrun & _ & Hcode & _).
    rewrite Hrun. destruct b; [|reflexivity].
    pose proof (proj1 (Hcode 1%Z eq_refl) eq_refl). discriminate.
  - destruct (is_debian_package_installed_exit_status "python-bloom"
                no_dpkg_env fresh_state)
      as (b & Hrun & _ & _ & Hnotfound & _).
    rewrite Hrun. by rewrite (Hnotfound eq_refl).
Defined.

Lemma via_pip_follows_import_witness :
  is_python_package_installed_via_pip_on_ubuntu "alpha"
    (example_env "ubuntu") fresh_state
  = (Return false, fresh_state) /\
  fst (is_python_package_installed_via_pip_on_ubuntu "beta"
         (example_env "ubuntu") fresh_state)
  = Return true.
Proof.
  split.
  - apply (proj1 (via_pip_follows_import "alpha" (example_env "ubuntu")
                    fresh_state) ImportError fresh_state);
      [vm_compute|]; reflexivity.
  - destruct (import_module "beta" (example_env "ubuntu") fresh_state)
      as [r s'] eqn:Himp.
    assert (r = Return {| mod_name := "beta";
                          mod_file := Some (PyStr "/usr/local/lib/beta") |})
      as -> by (vm_compute in Himp; congruence).
    by rewrite (proj2 (via_pip_follows_import "beta" (example_env "ubuntu")
                         fresh_state) _ _ _ Himp eq_refl).
Defined.

(** On a host where the import of [bloom] stops on a [SyntaxError], the
    load fails and [is_python_package_installed_via_pip_on_ubuntu] raises
    that error instead of returning [False]; and for a module that was
    loaded without a [__file__] it raises [AttributeError]: there is no
    path to test. *)
Lemma via_pip_raises_on_failed_load :
  fst (import_module "bloom" broken_bloom_env fresh_state) = Raise SyntaxError /\
  is_python_package_installed_via_pip_on_ubuntu "bloom" broken_bloom_env
    fresh_state
  = (Raise SyntaxError, fresh_state) /\
  fst (is_python_package_installed_via_pip_on_ubuntu "bloom" broken_bloom_env
         fresh_state)
  <> Return false /\
  fst (import_module "rosdep" no_file_env fresh_state)
  = Return {| mod_name := "rosdep"; mod_file := None |} /\
  fst (is_python_package_installed_via_pip_on_ubuntu "rosdep" no_file_env
         fresh_state)
  = Raise AttributeError.
Proof.
  split; [vm_compute; reflexivity|]. split; [vm_compute; reflexivity|].
  split; [vm_compute; discriminate|].
  split; vm_compute; reflexivity.
Qed.




Lemma only_ImportError_is_caught_witness :
  is_python_package_installed "bloom" broken_bloom_env fresh_state
  = (Raise SyntaxError, fresh_state) /\
  is_python_package_installed_via_pip_on_ubuntu "bloom" broken_bloom_env
    fresh_state
  = (Raise SyntaxError, fresh_state) /\
  fst (is_python_package_installed_via_pip_on_ubuntu "rosdep" no_file_env
         fresh_state)
  = Raise AttributeError /\
  fst (is_python_package_installed_via_pip_on_ubuntu "catkin" no_file_env
         fresh_state)
  = Raise TypeError /\
  (exists y, fst (python_module_install_check py_to_deb_packages tt
                    broken_bloom_env fresh_state) = Raise y) /\
  (exists y, fst (pip_install_check_on_ubuntu py_to_deb_packages tt
                    no_file_env fresh_state) = Raise y).
Proof.
  destruct (only_ImportError_is_caught py_to_deb_packages tt broken_bloom_env
              fresh_state "bloom" SyntaxError) as (Hexc & _ & _ & Hrule & _).
  destruct (Hexc fresh_state eq_refl eq_refl) as [Hplain Hpip].
  split; [exact Hplain|]. split; [exact Hpip|].
  split; [|split; [|split]].
  - destruct (import_module "rosdep" no_file_env fresh_state)
      as [r s'] eqn:Himp.
    assert (r = Return {| mod_name := "rosdep"; mod_file := None |})
      as -> by (vm_compute in Himp; congruence).
    destruct (only_ImportError_is_caught py_to_deb_packages tt no_file_env
                fresh_state "rosdep" AttributeError) as (_ & Hattr & _).
    by rewrite (Hattr _ _ Himp eq_refl).
  - destruct (import_module "catkin" no_file_env fresh_state)
      as [r s'] eqn:Himp.
    assert (r = Return {| mod_name := "catkin"; mod_file := Some PyNone |})
      as -> by (vm_compute in Himp; congruence).
    destruct (only_ImportError_is_caught py_to_deb_packages tt no_file_env
                fresh_state "catkin" TypeError) as (_ & _ & Htype & _).
    by rewrite (Htype _ _ Himp eq_refl).
  - destruct Hrule as (pre & k & post & y & _ & _ & _ & Hraise);
      [set_solver | vm_compute; reflexivity | eauto].
  - destruct (only_ImportError_is_caught py_to_deb_packages tt no_file_env
                fresh_state "catkin" TypeError) as (_ & _ & _ & _ & Hrule').
    destruct Hrule' as (pre & k & post & y & _ & _ & _ & Hraise);
      [vm_compute; reflexivity | set_solver | vm_compute; reflexivity | eauto].
Defined.

(** ** The Python path and the lines of the table *)

Section Formatting.

Lemma str_length_app (a b : string) :
  String.length (a +:+ b) = String.length a + String.length b.
Proof.
  induction a as [|c a IH]; [done|].
  rewrite str_app_cons. simpl. by rewrite IH.
Qed.

Lemma spaces_length (n : nat) : String.length (spaces n) = n.
Proof. induction n as [|n IH]; [done | simpl; by rewrite IH]. Qed.

Lemma format_width_length (width : nat) (s : string) :
  String.length (format_width width s) = width `max` String.length s.
Proof.
  unfold format_width. rewrite str_length_app, spaces_length. lia.
Qed.

Lemma substring_skip (p s : string) (m : nat) :
  String.substring (String.length p) m (p +:+ s) = String.substring 0 m s.
Proof. induction p as [|c p IH]; [done | by rewrite str_app_cons]. Qed.

Lemma substring_prefix (s t : string) :
  String.substring 0 (String.length s) (s +:+ t) = s.
Proof.
  induction s as [|c s IH]; [by destruct t|].
  rewrite str_app_cons. simpl. by rewrite IH.
Qed.

(** The field [s] sits at the offset [String.length p] of [p ++ s ++ t]. *)
Lemma substring_middle (p s t : string) :
  String.substring (String.length p) (String.length s) (p +:+ s +:+ t) = s.
Proof. by rewrite substring_skip, substring_prefix. Qed.

Lemma str_split_nonempty (sep : Ascii.ascii) (s : string) :
  str_split sep s <> [].
Proof.
  destruct s as [|c s]; [done|]. simpl.
  destruct (Ascii.eqb c sep); [done|]. by destruct (str_split sep s).
Qed.

Lemma str_join_split (sep : Ascii.ascii) (s : string) :
  str_join sep (str_split sep s) = s.
Proof.
  induction s as [|c s IH]; [done|]. simpl.
  pose proof (str_split_nonempty sep s) as Hne.
  destruct (Ascii.eqb_spec c sep) as [->|Hc].
  - destruct (str_split sep s) as [|p ps]; [done|].
    change (str_join sep ("" :: p :: ps))
      with ("" +:+ String sep (str_join sep (p :: ps))).
    by rewrite str_app_nil_l, IH.
  - destruct (str_split sep s) as [|p ps]; [done|].
    destruct ps as [|q ps]; simpl in *; [by rewrite IH|].
    by rewrite str_app_cons, IH.
Qed.

Lemma str_split_no_sep (sep : Ascii.ascii) (s p : string) :
  p ∈ str_split sep s -> str_contains (String sep "") p = false.
Proof.
  revert p. induction s as [|c s IH]; intros p Hp; simpl in Hp.
  - apply list_elem_of_singleton in Hp as ->. reflexivity.
  - destruct (Ascii.eqb_spec c sep) as [->|Hc].
    + apply elem_of_cons in Hp as [->|Hp]; [reflexivity | by apply IH].
    + pose proof (str_split_nonempty sep s) as Hne.
      destruct (str_split sep s) as [|q qs]; [done|].
      apply elem_of_cons in Hp as [->|Hp].
      * rewrite str_contains_cons. simpl.
        destruct (Ascii.ascii_dec sep c) as [->|_]; [done|].
        apply IH. by left.
      * apply IH. by right.
Qed.

Lemma column_at (p s t line : string) (n : nat) :
  line = p +:+ s +:+ t -> String.length p = n ->
  String.substring n (String.length s) line = s.
Proof. intros -> <-. apply substring_middle. Qed.

(** X1: [get_python_path_directories] raises [KeyError] when
    [PYTHONPATH] is not set.  When it is set, the result is never the
    empty list: joining its entries with the separator gives the value
    back and no entry contains the separator, so an empty value gives
    one empty entry. *)
Theorem get_python_path_directories_split
    (environ : gmap string string) (pathsep : Ascii.ascii) :
  (environ !! "PYTHONPATH" = None ->
   get_python_path_directories environ pathsep = Raise KeyError) /\
  (forall v, environ !! "PYTHONPATH" = Some v ->
     exists dirs,
       get_python_path_directories environ pathsep = Return dirs /\
       dirs <> [] /\
       str_join pathsep dirs = v /\
       (forall d, d ∈ dirs -> str_contains (String pathsep "") d = false)) /\
  (environ !! "PYTHONPATH" = Some "" ->
   get_python_path_directories environ pathsep = Return [""]).
Proof.
  unfold get_python_path_directories.
  split; [by intros ->|]. split; [|by intros ->].
  intros v ->. exists (str_split pathsep v).
  split; [done|]. split; [apply str_split_nonempty|].
  split; [apply str_join_split|]. intros d. apply str_split_no_sep.
Qed.

(** X2: a line of the table is as long as its five fields, each counted
    for its width (15, 20, 15, 15, 15) at least, and the twelve
    characters between them: no field is cut.  When the first four fields
    fit their widths, the five fields start at the offsets 0, 18, 41, 59
    and 77 of the line, whatever the length of the last one. *)
Theorem format_table_line_columns (a b c d f : string) :
  String.length (format_table_line a b c d f)
  = (15 `max` String.length a) + (20 `max` String.length b)
    + (15 `max` String.length c) + (15 `max` String.length d)
    + (15 `max` String.length f) + 12 /\
  (String.length a <= 15 -> String.length b <= 20 ->
   String.length c <= 15 -> String.length d <= 15 ->
   String.substring 0 (String.length a) (format_table_line a b c d f) = a /\
   String.substring 18 (String.length b) (format_table_line a b c d f) = b /\
   String.substring 41 (String.length c) (format_table_line a b c d f) = c /\
   String.substring 59 (String.length d) (format_table_line a b c d f) = d /\
   String.substring 77 (String.length f) (format_table_line a b c d f) = f).
Proof.
  split.
  - unfold format_table_line.
    rewrite !str_length_app, !format_width_length. simpl. lia.
  - intros Ha Hb Hc Hd.
    assert (forall w s, String.length s <= w ->
              String.length (format_width w s) = w) as Hfit.
    { intros w s Hs. rewrite format_width_length. lia. }
    pose proof (Hfit 15 a Ha) as La. pose proof (Hfit 20 b Hb) as Lb.
    pose proof (Hfit 15 c Hc) as Lc. pose proof (Hfit 15 d Hd) as Ld.
    unfold format_table_line.
    repeat split.
    + apply (column_at "" a
               (spaces (15 - String.length a) +:+ " | " +:+
                format_width 20 b +:+ " | " +:+ format_width 15 c +:+ " | " +:+
                format_width 15 d +:+ " | " +:+ format_width 15 f));
        [|done].
      unfold format_width at 1. by rewrite str_app_nil_l, !str_app_assoc.
    + apply (column_at (format_width 15 a +:+ " | ") b
               (spaces (20 - String.length b) +:+ " | " +:+
                format_width 15 c +:+ " | " +:+
                format_width 15 d +:+ " | " +:+ format_width 15 f)).
      * unfold format_width at 2. by rewrite !str_app_assoc.
      * rewrite str_length_app, La. done.
    + apply (column_at (format_width 15 a +:+ " | " +:+
                        format_width 20 b +:+ " | ") c
               (spaces (15 - String.length c) +:+ " | " +:+
                format_width 15 d +:+ " | " +:+ format_width 15 f)).
      * unfold format_width at 3. by rewrite !str_app_assoc.
      * rewrite !str_length_app, La, Lb. done.
    + apply (column_at (format_width 15 a +:+ " | " +:+
                        format_width 20 b +:+ " | " +:+
                        format_width 15 c +:+ " | ") d
               (spaces (15 - String.length d) +:+ " | " +:+
                format_width 15 f)).
      * unfold format_width at 4. by rewrite !str_app_assoc.
      * rewrite !str_length_app, La, Lb, Lc. done.
    + apply (column_at (format_width 15 a +:+ " | " +:+
                        format_width 20 b +:+ " | " +:+
                        format_width 15 c +:+ " | " +:+
                        format_width 15 d +:+ " | ") f
               (spaces (15 - String.length f))).
      * unfold format_width at 5. by rewrite !str_app_assoc.
      * rewrite !str_length_app, La, Lb, Lc, Ld. done.
Qed.

End Formatting.

(** ** The table of all checks *)

Section TableChecks.

Context {Ctx : Type}.
Implicit Types (R : dict) (e : env) (s : state Ctx) (out : list string).

Lemma out_bind_run {A B} (c : Out Ctx A) (k : A -> Out Ctx B) e st a st' :
  c e st = (Return a, st') -> out_bind c k e st = k a e st'.
Proof. unfold out_bind. by intros ->. Qed.

Lemma out_bind_raise {A B} (c : Out Ctx A) (k : A -> Out Ctx B) e st x st' :
  c e st = (Raise x, st') -> out_bind c k e st = (Raise x, st').
Proof. unfold out_bind. by intros ->. Qed.

Lemma out_for_in_cons {A} (x : A) (xs : list A) (body : A -> Out Ctx unit) :
  out_for_in (x :: xs) body = out_bind (body x) (fun _ => out_for_in xs body).
Proof. reflexivity. Qed.

Lemma run_run {A} (c : Py Ctx A) e s out r s' :
  c e s = (r, s') -> run c e (s, out) = (r, (s', out)).
Proof. unfold run. simpl. by intros ->. Qed.

Lemma is_command_runnable_run cmd_name e s :
  is_command_runnable cmd_name e s
  = (Return (Z.leb (command_exit_status e cmd_name) 0), s).
Proof.
  unfold is_command_runnable, try_except_CalledProcessError, bind,
    subprocess_call, command_exit_status.
  by destruct (Z.leb (returncode (sh e ("command -v " +:+ cmd_name))) 0).
Qed.

Lemma check_and_print_row R e s out k v :
  dict_get R k = Return v -> uncaught_via_pip e s k = None ->
  exists s', check_and_print R k e (s, out)
             = (Return tt, (s', (out ++ [table_row e s (k, v)])%list)) /\
             same_imports e s s'.
Proof.
  intros Hget Hk. unfold check_and_print.
  rewrite (out_bind_run _ _ e (s, out) v (s, out))
    by (apply run_run; unfold lift; by rewrite Hget).
  erewrite out_bind_run by (apply run_run, is_command_runnable_run).
  erewrite out_bind_run by (apply run_run, is_debian_package_installed_run).
  destruct (via_pip_run e k s Hk) as (s' & Hrun & Hs').
  erewrite out_bind_run by (apply run_run, Hrun).
  exists s'. by split.
Qed.

Lemma check_and_print_raise R e s out k v y :
  dict_get R k = Return v -> uncaught_via_pip e s k = Some y ->
  exists s', check_and_print R k e (s, out) = (Raise y, (s', out)).
Proof.
  intros Hget Hk. unfold check_and_print.
  rewrite (out_bind_run _ _ e (s, out) v (s, out))
    by (apply run_run; unfold lift; by rewrite Hget).
  erewrite out_bind_run by (apply run_run, is_command_runnable_run).
  erewrite out_bind_run by (apply run_run, is_debian_package_installed_run).
  destruct (via_pip_raise e k s y Hk) as (s' & Hrun).
  erewrite out_bind_raise by (apply run_run, Hrun).
  by exists s'.
Qed.

(** The rows of the pairs [l] of the registry [R], printed from a state
    [s1] in which the imports are those of [s]. *)
Lemma table_rows R e s (l : list (string * string)) :
  (forall p, p ∈ l -> dict_get R p.1 = Return p.2) ->
  (forall p, p ∈ l -> uncaught_via_pip e s p.1 = None) ->
  forall s1 out, same_imports e s s1 ->
    exists s2,
      out_for_in (dict_keys l) (fun key => check_and_print R key) e (s1, out)
      = (Return tt, (s2, (out ++ map (table_row e s) l)%list)) /\
      same_imports e s s2.
Proof.
  induction l as [|[k v] l IH]; intros Hget Hok s1 out Hs1.
  - exists s1. simpl. unfold out_ret. by rewrite app_nil_r.
  - destruct (check_and_print_row R e s1 out k v) as (s2 & Hrow & Hs2).
    { apply (Hget (k, v)). by left. }
    { rewrite (same_imports_uncaught_via_pip e s s1) by done.
      apply (Hok (k, v)). by left. }
    destruct (IH (fun p H => Hget p (list_elem_of_further _ _ _ H))
                 (fun p H => Hok p (list_elem_of_further _ _ _ H))
                 s2 (out ++ [table_row e s1 (k, v)])%list)
      as (s3 & Hrest & Hs3); [by eapply same_imports_trans|].
    exists s3. split; [|done].
    change (dict_keys ((k, v) :: l)) with (k :: dict_keys l). simpl.
    rewrite (out_bind_run _ _ _ _ _ _ Hrow), Hrest.
    rewrite <- app_assoc. simpl. do 4 f_equal.
    unfold table_row. simpl. by rewrite (same_imports_pip_path e s s1).
Qed.

(** X3: [is_command_runnable] never raises and leaves the state as it
    is; it is true exactly when the exit status of [command -v cmd_name]
    is zero or less.  For one and the same exit status it agrees with
    [is_debian_package_installed] unless the status is negative, which
    counts as runnable but as not installed. *)
Theorem is_command_runnable_exit_status cmd_name e s :
  exists b,
    is_command_runnable cmd_name e s = (Return b, s) /\
    (b = true <-> (command_exit_status e cmd_name <= 0)%Z) /\
    (forall deb_pkg,
       dpkg_exit_status e deb_pkg = command_exit_status e cmd_name ->
       (is_debian_package_installed deb_pkg e s = (Return b, s)
        <-> (0 <= command_exit_status e cmd_name)%Z)).
Proof.
  exists (Z.leb (command_exit_status e cmd_name) 0).
  split; [apply is_command_runnable_run|].
  split; [apply Z.leb_le|].
  intros deb_pkg Heq. rewrite is_debian_package_installed_run, Heq.
  split.
  - intros [= H].
    destruct (Z.eqb_spec (command_exit_status e cmd_name) 0) as [->|Hne];
      [done|].
    symmetry in H. apply Z.leb_gt in H. lia.
  - intros Hpos. do 2 f_equal.
    destruct (Z.eqb_spec (command_exit_status e cmd_name) 0) as [->|Hne];
      [done|].
    symmetry. apply Z.leb_gt. lia.
Qed.

(** X5: when, for every registry name, the import either fails with an
    [ImportError] or gives a module whose [__file__] is a string,
    [run_all_checks_and_print_table] returns after it has printed the two
    lines of the header and then one line for each registry pair, in the
    order of the registry; it prints nothing else. *)
Theorem run_all_checks_prints_table R e s out :
  wf_dict R ->
  (forall k, k ∈ dict_keys R -> uncaught_via_pip e s k = None) ->
  exists s',
    run_all_checks_and_print_table R e (s, out)
    = (Return tt, (s', (out ++ table_header ++ map (table_row e s) R)%list)) /\
    same_imports e s s'.
Proof.
  intros Hwf Hkeys. unfold run_all_checks_and_print_table.
  unfold out_bind at 1 2, print_table_line at 1 2, print. simpl.
  destruct (table_rows R e s R) with (s1 := s)
    (out := ((out ++
       [format_table_line "Py Package" "Deb Package" "Runnable"
          "Deb Installed" "Installed Via Pip"]) ++
       [format_table_line "----------" "-----------" "--------"
          "-------------" "-----------------"])%list)
    as (s' & Hrows & Hs').
  - intros p Hp. by apply dict_get_elem_of.
  - intros p Hp. apply Hkeys. apply list_elem_of_fmap. by exists p.
  - apply same_imports_refl.
  - exists s'. split; [|done]. rewrite Hrows.
    unfold table_header. by rewrite <- !app_assoc.
Qed.

(** X6: when the test of a registry name raises an exception that is not
    caught, [run_all_checks_and_print_table] raises it; the header and
    the lines of the pairs before that name stay printed, and no line is
    printed for that name or for the ones after it. *)
Theorem run_all_checks_stops_at_exception R e s out pre k v post y :
  wf_dict R ->
  R = (pre ++ (k, v) :: post)%list ->
  (forall p, p ∈ pre -> uncaught_via_pip e s p.1 = None) ->
  uncaught_via_pip e s k = Some y ->
  exists s',
    run_all_checks_and_print_table R e (s, out)
    = (Raise y, (s', (out ++ table_header ++ map (table_row e s) pre)%list)).
Proof.
  intros Hwf HR Hpre Hk. unfold run_all_checks_and_print_table.
  unfold out_bind at 1 2, print_table_line at 1 2, print. simpl.
  assert (forall p, p ∈ R -> dict_get R p.1 = Return p.2) as Hget.
  { intros p Hp. by apply dict_get_elem_of. }
  assert (forall (l : list (string * string)) s1 (o : list string),
            (forall p, p ∈ l -> p ∈ pre) -> same_imports e s s1 ->
            exists s2,
              out_for_in (dict_keys (l ++ (k, v) :: post)%list)
                (fun key => check_and_print R key) e (s1, o)
              = (Raise y, (s2, (o ++ map (table_row e s) l)%list)))
    as Hloop.
  { induction l as [|[k' v'] l IH]; intros s1 o Hl Hs1.
    - destruct (check_and_print_raise R e s1 o k v y) as (s2 & Hraise).
      { apply (Hget (k, v)). rewrite HR. apply elem_of_app. right. by left. }
      { by rewrite (same_imports_uncaught_via_pip e s s1). }
      exists s2. simpl.
      by rewrite (out_bind_raise _ _ _ _ _ _ Hraise), app_nil_r.
    - destruct (check_and_print_row R e s1 o k' v') as (s2 & Hrow & Hs2).
      { apply (Hget (k', v')). rewrite HR. apply elem_of_app. left.
        apply Hl. by left. }
      { rewrite (same_imports_uncaught_via_pip e s s1) by done.
        apply (Hpre (k', v')). apply Hl. by left. }
      destruct (IH s2 (o ++ [table_row e s1 (k', v')])%list)
        as (s3 & Hrest); [|by eapply same_imports_trans|].
      { intros p Hp. apply Hl. by right. }
      exists s3.
      change (dict_keys (((k', v') :: l) ++ (k, v) :: post)%list)
        with (k' :: dict_keys (l ++ (k, v) :: post)%list).
      rewrite out_for_in_cons, (out_bind_run _ _ _ _ _ _ Hrow), Hrest.
      rewrite <- app_assoc. simpl. do 4 f_equal.
      unfold table_row. simpl. by rewrite (same_imports_pip_path e s s1). }
  destruct (Hloop pre s
    ((out ++
       [format_table_line "Py Package" "Deb Package" "Runnable"
          "Deb Installed" "Installed Via Pip"]) ++
       [format_table_line "----------" "-----------" "--------"
          "-------------" "-----------------"])%list)
    as (s' & Hrun); [done | apply same_imports_refl |].
  exists s'.
  assert (dict_keys R = dict_keys (pre ++ (k, v) :: post)%list) as ->
    by (by rewrite HR).
  rewrite Hrun. unfold table_header. by rewrite <- !app_assoc.
Qed.

End TableChecks.

(** ** The rules on every host *)

Section RulesEverywhere.

Context {Ctx : Type}.
Implicit Types (R : dict) (ctx : Ctx) (e : env) (s : state Ctx).

Lemma bind_inv {A B} (c : Py Ctx A) (k : A -> Py Ctx B) e s b s' :
  bind c k e s = (Return b, s') ->
  exists a s1, c e s = (Return a, s1) /\ k a e s1 = (Return b, s').
Proof.
  unfold bind. destruct (c e s) as [[a|x] s1]; [eauto | discriminate].
Qed.

Lemma for_in_shape {A} e (body : A -> string -> Py Ctx string) (xs : list A) :
  (forall x acc s acc' s',
     warn_str_shape acc -> body x acc e s = (Return acc', s') ->
     warn_str_shape acc') ->
  forall acc s a s',
    warn_str_shape acc -> for_in xs body acc e s = (Return a, s') ->
    warn_str_shape a.
Proof.
  intros Hbody. induction xs as [|x xs IH]; intros acc s a s' Hacc Hrun.
  - by injection Hrun as <- _.
  - simpl in Hrun. apply bind_inv in Hrun as (acc1 & s1 & Hx & Hrest).
    eapply IH; [|exact Hrest]. by eapply Hbody.
Qed.

Lemma if_ret_shape e s (b : bool) (acc entry acc' : string) s' :
  warn_str_shape acc ->
  (if b then ret (entry +:+ " -- ") else ret acc) e s = (Return acc', s') ->
  warn_str_shape acc'.
Proof.
  intros Hacc. destruct b; intros [= <- _]; [right; eauto | done].
Qed.

Lemma return_if_nonempty_shape (warn_str w : string) :
  warn_str_shape warn_str -> return_if_nonempty warn_str = Some w ->
  exists body, w = body +:+ " -- ".
Proof.
  unfold return_if_nonempty.
  destruct (String.eqb_spec warn_str "") as [->|Hne]; [discriminate|].
  intros [->|Hbody] [= <-]; done.
Qed.

(** X7: whatever the host, a rule that returns a string returns one that
    ends with [" -- "]; a rule never returns the empty string. *)
Theorem rule_result_shape R (f : rule_fn) ctx e s w s' :
  call_rule R f ctx e s = (Return (Some w), s') ->
  w <> "" /\ exists body, w = body +:+ " -- ".
Proof.
  intros Hrun.
  assert (exists body, w = body +:+ " -- ") as [body ->].
  { destruct f; simpl in Hrun.
    - apply bind_inv in Hrun as (ws & s1 & Hloop & [= Hret _]).
      apply (return_if_nonempty_shape ws); [|done].
      eapply for_in_shape; [|by left|exact Hloop].
      intros k acc t acc' t' Hacc Hbody.
      apply bind_inv in Hbody as (b & t1 & _ & Hif).
      by eapply if_ret_shape.
    - apply bind_inv in Hrun as (ubuntu & s0 & _ & Hrun).
      destruct ubuntu; [|discriminate].
      apply bind_inv in Hrun as (ws & s1 & Hloop & [= Hret _]).
      apply (return_if_nonempty_shape ws); [|done].
      eapply for_in_shape; [|by left|exact Hloop].
      intros k acc t acc' t' Hacc Hbody.
      apply bind_inv in Hbody as (b & t1 & _ & Hif).
      by eapply if_ret_shape.
    - apply bind_inv in Hrun as (ubuntu & s0 & _ & Hrun).
      destruct ubuntu; [|discriminate].
      apply bind_inv in Hrun as (ws & s1 & Hloop & [= Hret _]).
      apply (return_if_nonempty_shape ws); [|done].
      eapply for_in_shape; [|by left|exact Hloop].
      intros k acc t acc' t' Hacc Hbody.
      apply bind_inv in Hbody as (deb & t0 & _ & Hbody).
      apply bind_inv in Hbody as (b & t1 & _ & Hif).
      apply (if_ret_shape e t1 (negb b) acc
               (acc +:+ k +:+ " (" +:+ deb +:+ ")") acc' t' Hacc).
      by rewrite !str_app_assoc in *. }
  split; [apply entry_nonempty | eauto].
Qed.

(** X8: a rule that has run changes nothing to what a rule returns or
    raises afterwards: the result of a rule after any other rule is its
    result in the state before, so the rules can run in any order. *)
Theorem rules_order_independent R (f g : rule_fn) ctx e s :
  fst (call_rule R f ctx e (snd (call_rule R g ctx e s)))
  = fst (call_rule R f ctx e s).
Proof.
  destruct (stable_rule R g ctx e s s (imports_agree_refl e s)) as [_ Hg].
  destruct (stable_rule R f ctx e s _ Hg) as [Hf _]. by rewrite Hf.
Qed.


(** X10: [is_python_package_installed_via_pip_on_ubuntu] is true only
    for a package that [is_python_package_installed] finds, with the same
    state left; and for a package that [is_python_package_installed]
    does not find, it is false as well. *)
Theorem via_pip_only_if_installed name e s :
  (fst (is_python_package_installed_via_pip_on_ubuntu name e s) = Return true ->
   is_python_package_installed name e s
   = is_python_package_installed_via_pip_on_ubuntu name e s) /\
  (fst (is_python_package_installed name e s) = Return false ->
   is_python_package_installed_via_pip_on_ubuntu name e s
   = is_python_package_installed name e s).
Proof.
  unfold is_python_package_installed_via_pip_on_ubuntu,
    is_python_package_installed, try_except_ImportError, bind, ret,
    getattr_file, raise, lift.
  destruct (import_module name e s) as [[m|x] s1].
  - destruct (mod_file m) as [[|p]|]; simpl; split; try discriminate.
    by intros [= ->].
  - destruct (is_ImportError x); simpl; split; done.
Qed.

End RulesEverywhere.

(** ** What each rule looks at *)

Section Collaborators.

Context {Ctx : Type} (e e' : env).
Implicit Types (R : dict) (ctx : Ctx) (s : state Ctx).

Lemma bind_same {A B} (c : Py Ctx A) (k : A -> Py Ctx B) :
  (forall s, c e s = c e' s) -> (forall a s, k a e s = k a e' s) ->
  forall s, bind c k e s = bind c k e' s.
Proof.
  intros Hc Hk s. unfold bind. rewrite Hc.
  destruct (c e' s) as [[a|x] s1]; [apply Hk | done].
Qed.

Lemma try_same {A} (c h : Py Ctx A) :
  (forall s, c e s = c e' s) -> (forall s, h e s = h e' s) ->
  forall s, try_except_ImportError c h e s = try_except_ImportError c h e' s.
Proof.
  intros Hc Hh s. unfold try_except_ImportError. rewrite Hc.
  destruct (c e' s) as [[a|x] s1]; [done|].
  destruct (is_ImportError x); [apply Hh | done].
Qed.

Lemma for_in_same {A S} (xs : list A) (body : A -> S -> Py Ctx S) :
  (forall x acc s, body x acc e s = body x acc e' s) ->
  forall acc s, for_in xs body acc e s = for_in xs body acc e' s.
Proof.
  intros Hbody. induction xs as [|x xs IH]; intros acc s; [done|].
  simpl. apply bind_same; [apply Hbody | intros; apply IH].
Qed.

Lemma import_module_same name :
  (forall n, find_module e n = find_module e' n) ->
  forall s, import_module (Ctx := Ctx) name e s = import_module name e' s.
Proof. intros H s. unfold import_module. by rewrite H. Qed.

Lemma import_module_same_at name :
  find_module e name = find_module e' name ->
  forall s, import_module (Ctx := Ctx) name e s = import_module name e' s.
Proof. intros H s. unfold import_module. by rewrite H. Qed.

Lemma is_host_os_ubuntu_same :
  detect_os e = detect_os e' ->
  find_module e "rospkg" = find_module e' "rospkg" ->
  find_module e "rospkg.os_detect" = find_module e' "rospkg.os_detect" ->
  forall s, is_host_os_ubuntu (Ctx := Ctx) e s = is_host_os_ubuntu e' s.
Proof.
  intros Hos H1 H2. unfold is_host_os_ubuntu, get_host_os.
  apply bind_same; [|done].
  apply bind_same.
  - unfold import_rospkg_os_detect.
    apply bind_same; [by apply import_module_same_at|]. intros _.
    apply bind_same; [by apply import_module_same_at | done].
  - intros _. apply bind_same; [|done].
    intros s. unfold os_detector_detect_os. by rewrite Hos.
Qed.

(** X11: each rule looks only at its own collaborators.  On two hosts
    with the same modules, [python_module_install_check] gives the same
    result, whatever the distribution and the installed packages; for
    [pip_install_check_on_ubuntu] the hosts must also have the same
    distribution; and [deb_install_check_on_ubuntu] gives the same
    result on two hosts with the same distribution, the same outcome of
    every command and the same [rospkg] and [rospkg.os_detect], whatever
    their other modules. *)
Theorem rules_collaborators R ctx s :
  ((forall n, find_module e n = find_module e' n) ->
   python_module_install_check R ctx e s
   = python_module_install_check R ctx e' s) /\
  (detect_os e = detect_os e' ->
   (forall n, find_module e n = find_module e' n) ->
   pip_install_check_on_ubuntu R ctx e s
   = pip_install_check_on_ubuntu R ctx e' s) /\
  (detect_os e = detect_os e' ->
   (forall cmd, sh e cmd = sh e' cmd) ->
   find_module e "rospkg" = find_module e' "rospkg" ->
   find_module e "rospkg.os_detect" = find_module e' "rospkg.os_detect" ->
   deb_install_check_on_ubuntu R ctx e s
   = deb_install_check_on_ubuntu R ctx e' s).
Proof.
  split; [|split].
  - intros Hfind. unfold python_module_install_check.
    apply bind_same; [|done]. apply for_in_same. intros k acc.
    apply bind_same; [|by intros []].
    apply try_same; [|done].
    apply bind_same; [by apply import_module_same | done].
  - intros Hos Hfind. unfold pip_install_check_on_ubuntu.
    apply bind_same; [by apply is_host_os_ubuntu_same|].
    intros [] t; [|done].
    apply bind_same; [|done]. apply for_in_same. intros k acc.
    apply bind_same; [|by intros []].
    apply try_same; [|done].
    apply bind_same; [by apply import_module_same|]. intros m.
    apply bind_same; [|done].
    intros t'. unfold getattr_file. by destruct (mod_file m).
  - intros Hos Hsh H1 H2. unfold deb_install_check_on_ubuntu.
    apply bind_same; [by apply is_host_os_ubuntu_same|].
    intros [] t; [|done].
    apply bind_same; [|done]. apply for_in_same. intros k acc.
    apply bind_same; [done|]. intros deb.
    apply bind_same; [|by intros []].
    intros t'. unfold is_debian_package_installed, bind, subprocess_call.
    by rewrite Hsh.
Qed.

End Collaborators.

(** ** The table and the rules at work on concrete hosts *)

Lemma get_python_path_directories_split_witness :
  get_python_path_directories ∅ linux_pathsep = Raise KeyError /\
  get_python_path_directories example_environ linux_pathsep
  = Return ["/opt/ros/lib"; ""; "/usr/lib/python2.7"] /\
  str_join linux_pathsep ["/opt/ros/lib"; ""; "/usr/lib/python2.7"]
  = "/opt/ros/lib::/usr/lib/python2.7".
Proof.
  destruct (get_python_path_directories_split ∅ linux_pathsep) as (Hunset & _).
  destruct (get_python_path_directories_split example_environ linux_pathsep)
    as (_ & Hset & _).
  split; [by apply Hunset|].
  destruct (Hset "/opt/ros/lib::/usr/lib/python2.7" eq_refl)
    as (dirs & Hdirs & _ & Hjoin & _).
  assert (dirs = ["/opt/ros/lib"; ""; "/usr/lib/python2.7"]) as ->
    by (vm_compute in Hdirs; congruence).
  by split.
Defined.

Lemma format_table_line_columns_witness :
  String.length (format_table_line "Py Package" "Deb Package" "Runnable"
                   "Deb Installed" "Installed Via Pip") = 94 /\
  String.substring 77 17 (format_table_line "Py Package" "Deb Package"
                            "Runnable" "Deb Installed" "Installed Via Pip")
  = "Installed Via Pip".
Proof.
  destruct (format_table_line_columns "Py Package" "Deb Package" "Runnable"
              "Deb Installed" "Installed Via Pip") as [Hlen Hcols].
  split; [by rewrite Hlen|].
  apply Hcols; simpl; lia.
Defined.

Lemma is_command_runnable_exit_status_witness :
  dpkg_exit_status killed_env "python-bloom"
  = command_exit_status killed_env "bloom" /\
  is_command_runnable "bloom" killed_env fresh_state
  = (Return true, fresh_state) /\
  is_debian_package_installed "python-bloom" killed_env fresh_state
  = (Return false, fresh_state).
Proof.
  split; [reflexivity|].
  destruct (is_command_runnable_exit_status "bloom" killed_env fresh_state)
    as (b & Hrun & Hb & Hdeb).
  assert (b = true) as -> by (by apply Hb).
  split; [exact Hrun | reflexivity].
Defined.

Lemma run_all_checks_prints_table_witness :
  snd (snd (run_all_checks_and_print_table example_registry
              (example_env "ubuntu") (fresh_state, [])))
  = (table_header ++
     [format_table_line "alpha" "python-alpha" "No" "No" "No";
      format_table_line "beta" "python-beta" "No" "Yes" "Yes"])%list.
Proof.
  destruct (run_all_checks_prints_table example_registry
              (example_env "ubuntu") fresh_state [])
    as (s' & Hrun & _);
    [nodup_keys | intros k Hk; each_key Hk |].
  rewrite Hrun. reflexivity.
Defined.

Lemma run_all_checks_stops_at_exception_witness :
  fst (run_all_checks_and_print_table py_to_deb_packages no_file_env
         (fresh_state, []))
  = Raise TypeError /\
  snd (snd (run_all_checks_and_print_table py_to_deb_packages no_file_env
              (fresh_state, [])))
  = (table_header ++
     [format_table_line "bloom" "python-bloom" "Yes" "Yes" "No"])%list.
Proof.
  destruct (run_all_checks_stops_at_exception py_to_deb_packages no_file_env
              fresh_state [] [("bloom", "python-bloom")]
              "catkin" "python-catkin"
              [("rospkg", "python-rospkg");
               ("rosinstall", "python-rosinstall");
               ("rosrelease", "python-rosrelease");
               ("rosdep", "python-rosdep")] TypeError)
    as (s' & Hrun);
    [nodup_keys | reflexivity | | vm_compute; reflexivity |].
  - intros p Hp. apply list_elem_of_singleton in Hp as ->.
    vm_compute. reflexivity.
  - rewrite Hrun. split; reflexivity.
Defined.

Lemma rule_result_shape_witness :
  exists body,
    "alpha (python-alpha) -- " = body +:+ " -- ".
Proof.
  destruct (deb_install_check_on_ubuntu example_registry tt
              (example_env "ubuntu") fresh_state) as [r s'] eqn:Hrun.
  assert (r = Return (Some "alpha (python-alpha) -- ")) as ->
    by (vm_compute in Hrun; congruence).
  apply (rule_result_shape example_registry Deb_install_check_on_ubuntu tt
           (example_env "ubuntu") fresh_state _ s' Hrun).
Defined.

Lemma via_pip_only_if_installed_witness :
  fst (is_python_package_installed_via_pip_on_ubuntu "beta"
         (example_env "ubuntu") fresh_state) = Return true /\
  fst (is_python_package_installed "beta" (example_env "ubuntu") fresh_state)
  = Return true /\
  fst (is_python_package_installed "alpha" (example_env "ubuntu") fresh_state)
  = Return false /\
  fst (is_python_package_installed_via_pip_on_ubuntu "alpha"
         (example_env "ubuntu") fresh_state) = Return false.
Proof.
  assert (fst (is_python_package_installed_via_pip_on_ubuntu "beta"
                 (example_env "ubuntu") fresh_state) = Return true) as Hbeta
    by (vm_compute; reflexivity).
  assert (fst (is_python_package_installed "alpha" (example_env "ubuntu")
                 fresh_state) = Return false) as Halpha
    by (vm_compute; reflexivity).
  split; [exact Hbeta|]. split; [|split; [exact Halpha|]].
  - by rewrite (proj1 (via_pip_only_if_installed "beta" (example_env "ubuntu")
                         fresh_state) Hbeta).
  - by rewrite (proj2 (via_pip_only_if_installed "alpha"
                         (example_env "ubuntu") fresh_state) Halpha).
Defined.

Lemma rules_collaborators_witness :
  python_module_install_check example_registry tt (example_env "fedora")
    fresh_state
  = python_module_install_check example_registry tt (example_env "ubuntu")
      fresh_state.
Proof.
  by apply (rules_collaborators (example_env "fedora") (example_env "ubuntu")).
Defined.
